(** * Bridge telemetry client: scan decoding, navigation status,
      connection lifecycle and camera image handling

    A shallow embedding of the three browser classes of the repository:
    - [LaserScanVisualization] (src/unnamed/part_000, and its older copy
      src/unnamed/part_001): scan decoding, the navigation status handler
      and the rosbridge connection lifecycle;
    - [CameraVisualization] (src/unnamed/part_002): the compressed/raw
      subscription probe and the raw image decoder.

    JavaScript numbers are IEEE 754 doubles, so the scan decoder is written
    over Rocq's primitive binary64 floats, whose operations the library
    specifies through [Prim2SF]. Objects become records, the
    methods become functions passing the object (and the part of the host
    the method touches: pending timers, bridge subscriptions, the canvas)
    explicitly. *)

From Stdlib Require Import PrimFloat FloatOps FloatAxioms SpecFloat.
From stdpp Require Import base list strings pretty.

(** ** Scan decoding: [updateLaserScan] *)

Module Scan.

Local Open Scope float_scope.

(** [this.scanData], replaced wholesale by every LaserScan message. *)
Record ScanData := {
  ranges : list float;
  angle_min : float;
  angle_max : float;
  angle_increment : float;
  range_min : float;
  range_max : float
}.

(** The value of the loop counter [i] after [k] executions of [i++]: the
    counter is a double like every JavaScript number. *)
Fixpoint js_index (k : nat) : float :=
  match k with
  | O => 0
  | S k' => js_index k' + 1
  end.

Section UpdateLaserScan.

(** [Math.cos] and [Math.sin] are host functions whose results the language
    leaves implementation-approximated. *)
Variables Math_cos Math_sin : float -> float.

(** The test of the [continue] statement:
    [isNaN(range) || range < range_min || range > range_max]. *)
Definition invalid_reading (sd : ScanData) (range : float) : bool :=
  is_nan range || (range <? range_min sd) || (range_max sd <? range).

(** The body of the [for] loop, from reading [ranges[i]] on, with the two
    arrays [positions] and [colors] built by [push]. *)
Fixpoint scan_loop (sd : ScanData) (i : float) (rest : list float)
    (positions colors : list float) : list float * list float :=
  match rest with
  | [] => (positions, colors)
  | range :: rest' =>
      if invalid_reading sd range then
        scan_loop sd (i + 1) rest' positions colors
      else
        let angle := angle_min sd + (i * angle_increment sd) in
        let x := range * Math_cos angle in
        let y := range * Math_sin angle in
        let normalizedRange :=
          (range - range_min sd) / (range_max sd - range_min sd) in
        let red := 1 in
        let green := normalizedRange in
        let blue := 0 in
        scan_loop sd (i + 1) rest'
          (positions ++ [x; y; 0]) (colors ++ [red; green; blue])
  end.

(** [updateLaserScan], up to the two arrays handed to the geometry (they
    are copied entry by entry into [Float32Array]s afterwards). *)
Definition updateLaserScan (sd : ScanData) : list float * list float :=
  scan_loop sd 0 (ranges sd) [] [].

(** What the specification says one reading contributes: nothing when it
    is NaN or outside the range bounds, one position and one colour
    otherwise. *)
Definition spec_reading (sd : ScanData) (k : nat) (range : float)
    : list float * list float :=
  if is_nan range then ([], [])
  else if range <? range_min sd then ([], [])
  else if range_max sd <? range then ([], [])
  else
    let angle := angle_min sd + js_index k * angle_increment sd in
    ([range * Math_cos angle; range * Math_sin angle; 0],
     [1; (range - range_min sd) / (range_max sd - range_min sd); 0]).

Definition spec_positions (sd : ScanData) : list float :=
  concat (imap (fun k r => fst (spec_reading sd k r)) (ranges sd)).

Definition spec_colors (sd : ScanData) : list float :=
  concat (imap (fun k r => snd (spec_reading sd k r)) (ranges sd)).

End UpdateLaserScan.

End Scan.

(** ** [LaserScanVisualization]: status bar, navigation status, connection *)

Module LaserScanVisualization.

(** The status element: [statusBar.style.color], [statusBar.textContent]. *)
Record StatusBar := { color : string; textContent : string }.

(** A [ROSLIB.Topic] object; [topic_id] tells the objects apart. *)
Record Topic := { topic_id : nat; name : string; messageType : string }.

(** The transport under a [ROSLIB.Ros] object. *)
Inductive Socket := Connecting | Open | Closing | Closed.

Record Ros := { ros_id : nat; url : string; socket : Socket }.

(** The callbacks the class hands to [Topic.subscribe]. *)
Inductive Callback := ScanCallback | PathCallback | StatusCallback.

Record Subscription := { sub_topic : Topic; sub_callback : Callback }.

(** The one timer callback of the class: [() => this.connectToROS()]. *)
Inductive TimerCallback := Reconnect.

(** A pending [setTimeout]. *)
Record Timer := { delay : Z; callback : TimerCallback }.

(** [actionlib_msgs/GoalStatus] and [GoalStatusArray]; [status_list] may be
    missing from the message object. *)
Record GoalStatus := { goal_id : string; status : Z; text : string }.

Record GoalStatusArray := { status_list : option (list GoalStatus) }.

(** The object, followed by the part of the host it acts on: the number of
    bridge objects created so far, the subscriptions the bridge holds, the
    pending timers, and the trace of [updateStatus] calls, which is what
    the status indicator is shown. *)
Record t := mk {
  rosbridgeUrl : string;
  ros : option Ros;
  laserScanTopic : option Topic;
  goalPublisher : option Topic;
  cancelPublisher : option Topic;
  pathSubscriber : option Topic;
  statusSubscriber : option Topic;
  navigationStatus : string;
  connectionStatus : string;
  statusBar : StatusBar;
  goalPosition : option (float * float);
  goalMarker_visible : bool;
  navControls : option string;
  created : nat;
  subscriptions : list Subscription;
  timers : list Timer;
  signals : list (string * string)
}.

Definition set_ros (x : option Ros) (v : t) : t :=
  {| rosbridgeUrl := rosbridgeUrl v; ros := x;
     laserScanTopic := laserScanTopic v; goalPublisher := goalPublisher v;
     cancelPublisher := cancelPublisher v; pathSubscriber := pathSubscriber v;
     statusSubscriber := statusSubscriber v;
     navigationStatus := navigationStatus v;
     connectionStatus := connectionStatus v; statusBar := statusBar v;
     goalPosition := goalPosition v;
     goalMarker_visible := goalMarker_visible v; navControls := navControls v;
     created := created v; subscriptions := subscriptions v;
     timers := timers v; signals := signals v |}.

Definition set_laserScanTopic (x : option Topic) (v : t) : t :=
  {| rosbridgeUrl := rosbridgeUrl v; ros := ros v; laserScanTopic := x;
     goalPublisher := goalPublisher v; cancelPublisher := cancelPublisher v;
     pathSubscriber := pathSubscriber v;
     statusSubscriber := statusSubscriber v;
     navigationStatus := navigationStatus v;
     connectionStatus := connectionStatus v; statusBar := statusBar v;
     goalPosition := goalPosition v;
     goalMarker_visible := goalMarker_visible v; navControls := navControls v;
     created := created v; subscriptions := subscriptions v;
     timers := timers v; signals := signals v |}.

Definition set_goalPublisher (x : option Topic) (v : t) : t :=
  {| rosbridgeUrl := rosbridgeUrl v; ros := ros v;
     laserScanTopic := laserScanTopic v; goalPublisher := x;
     cancelPublisher := cancelPublisher v; pathSubscriber := pathSubscriber v;
     statusSubscriber := statusSubscriber v;
     navigationStatus := navigationStatus v;
     connectionStatus := connectionStatus v; statusBar := statusBar v;
     goalPosition := goalPosition v;
     goalMarker_visible := goalMarker_visible v; navControls := navControls v;
     created := created v; subscriptions := subscriptions v;
     timers := timers v; signals := signals v |}.

Definition set_cancelPublisher (x : option Topic) (v : t) : t :=
  {| rosbridgeUrl := rosbridgeUrl v; ros := ros v;
     laserScanTopic := laserScanTopic v; goalPublisher := goalPublisher v;
     cancelPublisher := x; pathSubscriber := pathSubscriber v;
     statusSubscriber := statusSubscriber v;
     navigationStatus := navigationStatus v;
     connectionStatus := connectionStatus v; statusBar := statusBar v;
     goalPosition := goalPosition v;
     goalMarker_visible := goalMarker_visible v; navControls := navControls v;
     created := created v; subscriptions := subscriptions v;
     timers := timers v; signals := signals v |}.

Definition set_pathSubscriber (x : option Topic) (v : t) : t :=
  {| rosbridgeUrl := rosbridgeUrl v; ros := ros v;
     laserScanTopic := laserScanTopic v; goalPublisher := goalPublisher v;
     cancelPublisher := cancelPublisher v; pathSubscriber := x;
     statusSubscriber := statusSubscriber v;
     navigationStatus := navigationStatus v;
     connectionStatus := connectionStatus v; statusBar := statusBar v;
     goalPosition := goalPosition v;
     goalMarker_visible := goalMarker_visible v; navControls := navControls v;
     created := created v; subscriptions := subscriptions v;
     timers := timers v; signals := signals v |}.

Definition set_statusSubscriber (x : option Topic) (v : t) : t :=
  {| rosbridgeUrl := rosbridgeUrl v; ros := ros v;
     laserScanTopic := laserScanTopic v; goalPublisher := goalPublisher v;
     cancelPublisher := cancelPublisher v; pathSubscriber := pathSubscriber v;
     statusSubscriber := x; navigationStatus := navigationStatus v;
     connectionStatus := connectionStatus v; statusBar := statusBar v;
     goalPosition := goalPosition v;
     goalMarker_visible := goalMarker_visible v; navControls := navControls v;
     created := created v; subscriptions := subscriptions v;
     timers := timers v; signals := signals v |}.

Definition set_navigationStatus (x : string) (v : t) : t :=
  {| rosbridgeUrl := rosbridgeUrl v; ros := ros v;
     laserScanTopic := laserScanTopic v; goalPublisher := goalPublisher v;
     cancelPublisher := cancelPublisher v; pathSubscriber := pathSubscriber v;
     statusSubscriber := statusSubscriber v; navigationStatus := x;
     connectionStatus := connectionStatus v; statusBar := statusBar v;
     goalPosition := goalPosition v;
     goalMarker_visible := goalMarker_visible v; navControls := navControls v;
     created := created v; subscriptions := subscriptions v;
     timers := timers v; signals := signals v |}.

Definition set_connectionStatus (x : string) (v : t) : t :=
  {| rosbridgeUrl := rosbridgeUrl v; ros := ros v;
     laserScanTopic := laserScanTopic v; goalPublisher := goalPublisher v;
     cancelPublisher := cancelPublisher v; pathSubscriber := pathSubscriber v;
     statusSubscriber := statusSubscriber v;
     navigationStatus := navigationStatus v; connectionStatus := x;
     statusBar := statusBar v; goalPosition := goalPosition v;
     goalMarker_visible := goalMarker_visible v; navControls := navControls v;
     created := created v; subscriptions := subscriptions v;
     timers := timers v; signals := signals v |}.

Definition set_statusBar (x : StatusBar) (v : t) : t :=
  {| rosbridgeUrl := rosbridgeUrl v; ros := ros v;
     laserScanTopic := laserScanTopic v; goalPublisher := goalPublisher v;
     cancelPublisher := cancelPublisher v; pathSubscriber := pathSubscriber v;
     statusSubscriber := statusSubscriber v;
     navigationStatus := navigationStatus v;
     connectionStatus := connectionStatus v; statusBar := x;
     goalPosition := goalPosition v;
     goalMarker_visible := goalMarker_visible v; navControls := navControls v;
     created := created v; subscriptions := subscriptions v;
     timers := timers v; signals := signals v |}.

Definition set_goalPosition (x : option (float * float)) (v : t) : t :=
  {| rosbridgeUrl := rosbridgeUrl v; ros := ros v;
     laserScanTopic := laserScanTopic v; goalPublisher := goalPublisher v;
     cancelPublisher := cancelPublisher v; pathSubscriber := pathSubscriber v;
     statusSubscriber := statusSubscriber v;
     navigationStatus := navigationStatus v;
     connectionStatus := connectionStatus v; statusBar := statusBar v;
     goalPosition := x; goalMarker_visible := goalMarker_visible v;
     navControls := navControls v; created := created v;
     subscriptions := subscriptions v; timers := timers v;
     signals := signals v |}.

Definition set_goalMarker_visible (x : bool) (v : t) : t :=
  {| rosbridgeUrl := rosbridgeUrl v; ros := ros v;
     laserScanTopic := laserScanTopic v; goalPublisher := goalPublisher v;
     cancelPublisher := cancelPublisher v; pathSubscriber := pathSubscriber v;
     statusSubscriber := statusSubscriber v;
     navigationStatus := navigationStatus v;
     connectionStatus := connectionStatus v; statusBar := statusBar v;
     goalPosition := goalPosition v; goalMarker_visible := x;
     navControls := navControls v; created := created v;
     subscriptions := subscriptions v; timers := timers v;
     signals := signals v |}.

Definition set_navControls (x : option string) (v : t) : t :=
  {| rosbridgeUrl := rosbridgeUrl v; ros := ros v;
     laserScanTopic := laserScanTopic v; goalPublisher := goalPublisher v;
     cancelPublisher := cancelPublisher v; pathSubscriber := pathSubscriber v;
     statusSubscriber := statusSubscriber v;
     navigationStatus := navigationStatus v;
     connectionStatus := connectionStatus v; statusBar := statusBar v;
     goalPosition := goalPosition v;
     goalMarker_visible := goalMarker_visible v; navControls := x;
     created := created v; subscriptions := subscriptions v;
     timers := timers v; signals := signals v |}.

Definition set_created (x : nat) (v : t) : t :=
  {| rosbridgeUrl := rosbridgeUrl v; ros := ros v;
     laserScanTopic := laserScanTopic v; goalPublisher := goalPublisher v;
     cancelPublisher := cancelPublisher v; pathSubscriber := pathSubscriber v;
     statusSubscriber := statusSubscriber v;
     navigationStatus := navigationStatus v;
     connectionStatus := connectionStatus v; statusBar := statusBar v;
     goalPosition := goalPosition v;
     goalMarker_visible := goalMarker_visible v; navControls := navControls v;
     created := x; subscriptions := subscriptions v; timers := timers v;
     signals := signals v |}.

Definition set_subscriptions (x : list Subscription) (v : t) : t :=
  {| rosbridgeUrl := rosbridgeUrl v; ros := ros v;
     laserScanTopic := laserScanTopic v; goalPublisher := goalPublisher v;
     cancelPublisher := cancelPublisher v; pathSubscriber := pathSubscriber v;
     statusSubscriber := statusSubscriber v;
     navigationStatus := navigationStatus v;
     connectionStatus := connectionStatus v; statusBar := statusBar v;
     goalPosition := goalPosition v;
     goalMarker_visible := goalMarker_visible v; navControls := navControls v;
     created := created v; subscriptions := x; timers := timers v;
     signals := signals v |}.

Definition set_timers (x : list Timer) (v : t) : t :=
  {| rosbridgeUrl := rosbridgeUrl v; ros := ros v;
     laserScanTopic := laserScanTopic v; goalPublisher := goalPublisher v;
     cancelPublisher := cancelPublisher v; pathSubscriber := pathSubscriber v;
     statusSubscriber := statusSubscriber v;
     navigationStatus := navigationStatus v;
     connectionStatus := connectionStatus v; statusBar := statusBar v;
     goalPosition := goalPosition v;
     goalMarker_visible := goalMarker_visible v; navControls := navControls v;
     created := created v; subscriptions := subscriptions v; timers := x;
     signals := signals v |}.

Definition set_signals (x : list (string * string)) (v : t) : t :=
  {| rosbridgeUrl := rosbridgeUrl v; ros := ros v;
     laserScanTopic := laserScanTopic v; goalPublisher := goalPublisher v;
     cancelPublisher := cancelPublisher v; pathSubscriber := pathSubscriber v;
     statusSubscriber := statusSubscriber v;
     navigationStatus := navigationStatus v;
     connectionStatus := connectionStatus v; statusBar := statusBar v;
     goalPosition := goalPosition v;
     goalMarker_visible := goalMarker_visible v; navControls := navControls v;
     created := created v; subscriptions := subscriptions v;
     timers := timers v; signals := x |}.

(** [colors[status] || '#FDB913'] over the three keys of [colors]. *)
Definition status_color (status : string) : string :=
  if String.eqb status "connected" then "#00FF00"
  else if String.eqb status "connecting" then "#FDB913"
  else if String.eqb status "disconnected" then "#FF0000"
  else "#FDB913".

Definition updateStatus (status message : string) (v : t) : t :=
  let v := set_connectionStatus status v in
  let v := set_statusBar
             {| color := status_color status; textContent := message |} v in
  set_signals (signals v ++ [(status, message)]) v.

Definition hideNavigationControls (v : t) : t :=
  match navControls v with
  | Some _ => set_navControls (Some "none") v
  | None => v
  end.

Definition clearGoal (v : t) : t :=
  let v := set_goalPosition None v in
  let v := set_goalMarker_visible false v in
  let v := hideNavigationControls v in
  updateStatus "connected" "✓ Connected to ROS" v.

(** [statusMap[status.status] || 'UNKNOWN']. *)
Definition statusMap (code : Z) : string :=
  match code with
  | 0 => "PENDING"
  | 1 => "ACTIVE"
  | 2 => "PREEMPTED"
  | 3 => "SUCCEEDED"
  | 4 => "ABORTED"
  | 5 => "REJECTED"
  | 6 => "PREEMPTING"
  | 7 => "RECALLING"
  | 8 => "RECALLED"
  | 9 => "LOST"
  | _ => "UNKNOWN"
  end%Z.

Definition handleNavigationStatus (st : GoalStatus) (v : t) : t :=
  let statusName := statusMap (status st) in
  let v := set_navigationStatus statusName v in
  match status st with
  | 1 =>
      updateStatus "connected" ("🚁 Navigating... (" +:+ statusName +:+ ")") v
  | 3 =>
      let v :=
        updateStatus "connected" ("✓ Goal Reached! (" +:+ statusName +:+ ")") v in
      clearGoal v
  | 4 | 5 =>
      updateStatus "disconnected"
        ("✗ Navigation Failed (" +:+ statusName +:+ ")") v
  | _ =>
      match goalPosition v with
      | Some _ => updateStatus "connected" ("⏱ " +:+ statusName) v
      | None => v
      end
  end%Z.

(** The callback [subscribeNavigationStatus] registers on [/move_base/status]. *)
Definition statusCallback (message : GoalStatusArray) (v : t) : t :=
  match status_list message with
  | Some l =>
      if (0 <? length l)%nat then
        match l !! (length l - 1)%nat with
        | Some latestStatus => handleNavigationStatus latestStatus v
        | None => v
        end
      else v
  | None => v
  end.

(** [new ROSLIB.Topic({ros, name, messageType})]. *)
Definition new_Topic (nm ty : string) (v : t) : Topic * t :=
  ({| topic_id := created v; name := nm; messageType := ty |},
   set_created (S (created v)) v).

(** [topic.subscribe(callback)], [topic.unsubscribe()]. *)
Definition subscribe (tp : Topic) (cb : Callback) (v : t) : t :=
  set_subscriptions
    (subscriptions v ++ [{| sub_topic := tp; sub_callback := cb |}]) v.

Definition unsubscribe (tp : Topic) (v : t) : t :=
  set_subscriptions
    (filter (fun s => topic_id (sub_topic s) ≠ topic_id tp) (subscriptions v))
    v.

Definition subscribeLaserScan (v : t) : t :=
  let '(tp, v) := new_Topic "/world" "sensor_msgs/LaserScan" v in
  subscribe tp ScanCallback (set_laserScanTopic (Some tp) v).

Definition setupGoalPublisher (v : t) : t :=
  let '(tp, v) :=
    new_Topic "/move_base_simple/goal" "geometry_msgs/PoseStamped" v in
  let v := set_goalPublisher (Some tp) v in
  let '(tp, v) := new_Topic "/move_base/cancel" "actionlib_msgs/GoalID" v in
  set_cancelPublisher (Some tp) v.

Definition subscribePath (v : t) : t :=
  let '(tp, v) := new_Topic "/move_base/NavfnROS/plan" "nav_msgs/Path" v in
  subscribe tp PathCallback (set_pathSubscriber (Some tp) v).

Definition subscribeNavigationStatus (v : t) : t :=
  let '(tp, v) :=
    new_Topic "/move_base/status" "actionlib_msgs/GoalStatusArray" v in
  subscribe tp StatusCallback (set_statusSubscriber (Some tp) v).

(** [setTimeout(callback, delay)]. *)
Definition setTimeout (cb : TimerCallback) (ms : Z) (v : t) : t :=
  set_timers (timers v ++ [{| delay := ms; callback := cb |}]) v.

(** [connectToROS], up to the registration of the three handlers below on
    the new [ROSLIB.Ros] object. *)
Definition connectToROS (v : t) : t :=
  let v := updateStatus "connecting" "Connecting to ROS..." v in
  let r := {| ros_id := created v; url := rosbridgeUrl v;
              socket := Connecting |} in
  set_ros (Some r) (set_created (S (created v)) v).

(** The handlers of ['connection'], ['error'] and ['close']. *)
Definition on_connection (v : t) : t :=
  let v := updateStatus "connected" "✓ Connected to ROS" v in
  let v := subscribeLaserScan v in
  let v := setupGoalPublisher v in
  let v := subscribePath v in
  subscribeNavigationStatus v.

Definition on_error (v : t) : t :=
  updateStatus "disconnected" "✗ Connection Error - Check rosbridge" v.

Definition on_close (v : t) : t :=
  let v := updateStatus "disconnected" "✗ Disconnected from ROS" v in
  setTimeout Reconnect 3000 v.

(** [ros.close()]: asks the transport to close; the ['close'] event is
    delivered later by the host. *)
Definition ros_close (r : Ros) : Ros :=
  match socket r with
  | Connecting | Open =>
      {| ros_id := ros_id r; url := url r; socket := Closing |}
  | Closing | Closed => r
  end.

Definition disconnect (v : t) : t :=
  let v :=
    match laserScanTopic v with
    | Some tp => unsubscribe tp v
    | None => v
    end in
  match ros v with
  | Some r => set_ros (Some (ros_close r)) v
  | None => v
  end.

(** What the transport does to the socket when it reports an event. *)
Definition with_socket (s : Socket) (v : t) : t :=
  match ros v with
  | Some r =>
      set_ros (Some {| ros_id := ros_id r; url := url r; socket := s |}) v
  | None => v
  end.

(** The events of the page's event loop that reach the object: transport
    events of the current bridge object, a pending timer firing (the [n]th
    of the pending ones), a message on the status topic, and the caller
    invoking [disconnect]. *)
Inductive Event :=
  | TransportOpen
  | TransportError
  | TransportClose
  | TimerFires (n : nat)
  | StatusMessage (message : GoalStatusArray)
  | CallDisconnect.

Definition run_timer (cb : TimerCallback) (v : t) : t :=
  match cb with
  | Reconnect => connectToROS v
  end.

Definition has_status_subscription (v : t) : bool :=
  existsb (fun s => match sub_callback s with
                    | StatusCallback => true
                    | _ => false
                    end) (subscriptions v).

Definition step (e : Event) (v : t) : t :=
  match e with
  | TransportOpen => on_connection (with_socket Open v)
  | TransportError => on_error v
  | TransportClose => on_close (with_socket Closed v)
  | TimerFires n =>
      match timers v !! n with
      | Some tm => run_timer (callback tm) (set_timers (delete n (timers v)) v)
      | None => v
      end
  | StatusMessage message =>
      if has_status_subscription v then statusCallback message v else v
  | CallDisconnect => disconnect v
  end.

Definition run (es : list Event) (v : t) : t :=
  foldl (fun v e => step e v) v es.

(** The object as the constructor leaves it: the fields of the constructor,
    the status bar and controls made by [init], then [connectToROS]. *)
Definition constructor (rosbridgeUrl : string) : t :=
  connectToROS
    {| rosbridgeUrl := rosbridgeUrl; ros := None; laserScanTopic := None;
       goalPublisher := None; cancelPublisher := None;
       pathSubscriber := None; statusSubscriber := None;
       navigationStatus := "IDLE"; connectionStatus := "disconnected";
       statusBar := {| color := "#FDB913";
                       textContent := "Connecting to ROS..." |};
       goalPosition := None; goalMarker_visible := false;
       navControls := Some "none"; created := 0; subscriptions := [];
       timers := []; signals := [] |}.

(** [setGoalPosition(x, y)], the click handler's effect; [message] is the
    status text, which the method builds from the coordinates by [toFixed]. *)
Definition setGoalPosition (x y : float) (message : string) (v : t) : t :=
  let v := set_goalPosition (Some (x, y)) v in
  let v := set_goalMarker_visible true v in
  let v := updateStatus "connected" message v in
  match navControls v with
  | Some _ => set_navControls (Some "block") v
  | None => v
  end.

(** *** Vocabulary of the properties *)

(** The message whose list ends with an entry of code [c]. *)
Definition status_message (earlier : list GoalStatus) (gid : string) (c : Z)
    (txt : string) : GoalStatusArray :=
  {| status_list :=
       Some (earlier ++ [{| goal_id := gid; status := c; text := txt |}]) |}.


(** The status signals sent between two states. *)
Definition emitted (v v' : t) : list (string * string) :=
  drop (length (signals v)) (signals v').

(** An object holding a goal: connected, then a click at (1, 2). *)
Definition holding_goal : t :=
  setGoalPosition 1 2 "✓ Goal Set: (1.00, 2.00) - Click 'Send Goal' to navigate"
    (step TransportOpen (constructor "ws://localhost:9090")).

End LaserScanVisualization.

(** ** Host functions used by [CameraVisualization] *)

Module Host.

(** [for (let i = start; i < len; i += step) body]: since [step] is
    positive, [len - start] rounds of fuel always reach the exit test. *)
Fixpoint for_loop {S : Type} (fuel : nat) (i step len : nat)
    (body : nat -> S -> S) (s : S) : S :=
  match fuel with
  | O => s
  | S fuel' =>
      if (i <? len)%nat then for_loop fuel' (i + step) step len body (body i s)
      else s
  end.

(** [window.atob], the forgiving base64 decoder of the HTML standard:
    [None] is the [InvalidCharacterError] exception, [Some] carries the
    character codes of the binary string. *)
Definition is_ascii_whitespace (c : Ascii.ascii) : bool :=
  let n := Ascii.N_of_ascii c in
  ((n =? 9) || (n =? 10) || (n =? 12) || (n =? 13) || (n =? 32))%N.

Definition sextet (c : Ascii.ascii) : option Z :=
  let n := Z.of_N (Ascii.N_of_ascii c) in
  (if (65 <=? n) && (n <=? 90) then Some (n - 65)
   else if (97 <=? n) && (n <=? 122) then Some (n - 71)
   else if (48 <=? n) && (n <=? 57) then Some (n + 4)
   else if n =? 43 then Some 62
   else if n =? 47 then Some 63
   else None)%Z.

Definition is_equals (c : Ascii.ascii) : bool := (Ascii.N_of_ascii c =? 61)%N.

(** Removes one or two trailing [=] when the length is a multiple of 4. *)
Definition strip_padding (cs : list Ascii.ascii) : list Ascii.ascii :=
  if (length cs mod 4 =? 0)%nat then
    match reverse cs with
    | c1 :: c2 :: rest =>
        if is_equals c1 then
          if is_equals c2 then reverse rest else reverse (c2 :: rest)
        else cs
    | _ => cs
    end
  else cs.

Fixpoint decode_sextets (l : list Z) : list Z :=
  match l with
  | a :: b :: c :: d :: rest =>
      (a * 4 + b / 16) :: ((b mod 16) * 16 + c / 4) :: ((c mod 4) * 64 + d)
      :: decode_sextets rest
  | [a; b; c] => [a * 4 + b / 16; (b mod 16) * 16 + c / 4]
  | [a; b] => [a * 4 + b / 16]
  | _ => []
  end%Z.

Definition atob (data : string) : option (list Z) :=
  let cs := filter (fun c => is_ascii_whitespace c = false)
              (String.list_ascii_of_string data) in
  let cs := strip_padding cs in
  if (length cs mod 4 =? 1)%nat then None
  else decode_sextets <$> mapM sextet cs.

(** [Math.round(a / b)] for integers [a >= 0] and [b > 0], in exact
    arithmetic; the double quotient rounds to the same integer as long as
    [a] stays below 2^52. *)
Definition Math_round_div (a b : Z) : Z := ((2 * a + b) / (2 * b))%Z.

End Host.

(** ** [CameraVisualization]: subscription probe and raw image decoding

    The connection handlers of this class repeat those of
    [LaserScanVisualization] with other status texts; what is modelled here
    starts when a bridge session is open and [subscribeToCamera] runs. *)

Module CameraVisualization.

Import Host.

Record StatusBar := { color : string; textContent : string }.

Record Topic := { topic_id : nat; name : string; messageType : string }.

(** The callbacks handed to [Topic.subscribe]. The compressed one closes
    over its own [receivedMessage] cell and timer handle. *)
Inductive Callback :=
  | CompressedCallback (probe : nat) (timeout : nat)
  | RawCallback.

Record Subscription := { sub_topic : Topic; sub_callback : Callback }.

(** The timer callback of [subscribeCompressedImage], closing over the
    same [receivedMessage] cell. *)
Inductive TimerCallback := ProbeTimeout (probe : nat).

Record Timer := { timer_id : nat; delay : Z; callback : TimerCallback }.

(** [message.data]: missing, a base64 string, or an array of numbers. *)
Inductive Data :=
  | NoData
  | Text (s : string)
  | Binary (l : list Z).

(** [sensor_msgs/CompressedImage] and [sensor_msgs/Image]. *)
Record CompressedImage := { format : string; compressed_data : Data }.

Record Image := {
  width : nat;
  height : nat;
  encoding : string;
  data : Data
}.

Inductive Message :=
  | Compressed (m : CompressedImage)
  | Raw (m : Image).

(** The canvas: its size attributes and its RGBA backing store. *)
Record Canvas := {
  canvas_width : nat;
  canvas_height : nat;
  pixels : list Z
}.

(** Calls of the two image handlers, in order. *)
Inductive Handled :=
  | HandledCompressed (m : CompressedImage)
  | HandledRaw (m : Image).

(** How a call of [handleRawImage] ends. [Threw] is an exception of the
    host ([atob] or [createImageData]) leaving the handler. *)
Inductive Outcome :=
  | Rendered
  | DroppedNoData
  | DroppedUnsupported
  | Threw.

(** The object, followed by the part of the host it acts on: objects and
    timer handles created so far, the subscriptions the bridge holds, the
    [receivedMessage] cells of the closures, the pending timers, and the
    traces of handler calls and of [updateStatus] calls. *)
Record t := mk {
  cameraTopic : string;
  cameraSubscriber : option Topic;
  canvas : Canvas;
  connectionStatus : string;
  statusBar : StatusBar;
  frameCount : Z;
  lastFrameTime : Z;
  fps : Z;
  created : nat;
  subscriptions : list Subscription;
  receivedMessage : list bool;
  timers : list Timer;
  handled : list Handled;
  signals : list (string * string)
}.

Definition set_cameraSubscriber (x : option Topic) (v : t) : t :=
  {| cameraTopic := cameraTopic v; cameraSubscriber := x; canvas := canvas v;
     connectionStatus := connectionStatus v; statusBar := statusBar v;
     frameCount := frameCount v; lastFrameTime := lastFrameTime v;
     fps := fps v; created := created v; subscriptions := subscriptions v;
     receivedMessage := receivedMessage v; timers := timers v;
     handled := handled v; signals := signals v |}.

Definition set_canvas (x : Canvas) (v : t) : t :=
  {| cameraTopic := cameraTopic v; cameraSubscriber := cameraSubscriber v;
     canvas := x; connectionStatus := connectionStatus v;
     statusBar := statusBar v; frameCount := frameCount v;
     lastFrameTime := lastFrameTime v; fps := fps v; created := created v;
     subscriptions := subscriptions v; receivedMessage := receivedMessage v;
     timers := timers v; handled := handled v; signals := signals v |}.

Definition set_connectionStatus (x : string) (v : t) : t :=
  {| cameraTopic := cameraTopic v; cameraSubscriber := cameraSubscriber v;
     canvas := canvas v; connectionStatus := x; statusBar := statusBar v;
     frameCount := frameCount v; lastFrameTime := lastFrameTime v;
     fps := fps v; created := created v; subscriptions := subscriptions v;
     receivedMessage := receivedMessage v; timers := timers v;
     handled := handled v; signals := signals v |}.

Definition set_statusBar (x : StatusBar) (v : t) : t :=
  {| cameraTopic := cameraTopic v; cameraSubscriber := cameraSubscriber v;
     canvas := canvas v; connectionStatus := connectionStatus v;
     statusBar := x; frameCount := frameCount v;
     lastFrameTime := lastFrameTime v; fps := fps v; created := created v;
     subscriptions := subscriptions v; receivedMessage := receivedMessage v;
     timers := timers v; handled := handled v; signals := signals v |}.

Definition set_frameCount (x : Z) (v : t) : t :=
  {| cameraTopic := cameraTopic v; cameraSubscriber := cameraSubscriber v;
     canvas := canvas v; connectionStatus := connectionStatus v;
     statusBar := statusBar v; frameCount := x;
     lastFrameTime := lastFrameTime v; fps := fps v; created := created v;
     subscriptions := subscriptions v; receivedMessage := receivedMessage v;
     timers := timers v; handled := handled v; signals := signals v |}.

Definition set_lastFrameTime (x : Z) (v : t) : t :=
  {| cameraTopic := cameraTopic v; cameraSubscriber := cameraSubscriber v;
     canvas := canvas v; connectionStatus := connectionStatus v;
     statusBar := statusBar v; frameCount := frameCount v; lastFrameTime := x;
     fps := fps v; created := created v; subscriptions := subscriptions v;
     receivedMessage := receivedMessage v; timers := timers v;
     handled := handled v; signals := signals v |}.

Definition set_fps (x : Z) (v : t) : t :=
  {| cameraTopic := cameraTopic v; cameraSubscriber := cameraSubscriber v;
     canvas := canvas v; connectionStatus := connectionStatus v;
     statusBar := statusBar v; frameCount := frameCount v;
     lastFrameTime := lastFrameTime v; fps := x; created := created v;
     subscriptions := subscriptions v; receivedMessage := receivedMessage v;
     timers := timers v; handled := handled v; signals := signals v |}.

Definition set_created (x : nat) (v : t) : t :=
  {| cameraTopic := cameraTopic v; cameraSubscriber := cameraSubscriber v;
     canvas := canvas v; connectionStatus := connectionStatus v;
     statusBar := statusBar v; frameCount := frameCount v;
     lastFrameTime := lastFrameTime v; fps := fps v; created := x;
     subscriptions := subscriptions v; receivedMessage := receivedMessage v;
     timers := timers v; handled := handled v; signals := signals v |}.

Definition set_subscriptions (x : list Subscription) (v : t) : t :=
  {| cameraTopic := cameraTopic v; cameraSubscriber := cameraSubscriber v;
     canvas := canvas v; connectionStatus := connectionStatus v;
     statusBar := statusBar v; frameCount := frameCount v;
     lastFrameTime := lastFrameTime v; fps := fps v; created := created v;
     subscriptions := x; receivedMessage := receivedMessage v;
     timers := timers v; handled := handled v; signals := signals v |}.

Definition set_receivedMessage (x : list bool) (v : t) : t :=
  {| cameraTopic := cameraTopic v; cameraSubscriber := cameraSubscriber v;
     canvas := canvas v; connectionStatus := connectionStatus v;
     statusBar := statusBar v; frameCount := frameCount v;
     lastFrameTime := lastFrameTime v; fps := fps v; created := created v;
     subscriptions := subscriptions v; receivedMessage := x;
     timers := timers v; handled := handled v; signals := signals v |}.

Definition set_timers (x : list Timer) (v : t) : t :=
  {| cameraTopic := cameraTopic v; cameraSubscriber := cameraSubscriber v;
     canvas := canvas v; connectionStatus := connectionStatus v;
     statusBar := statusBar v; frameCount := frameCount v;
     lastFrameTime := lastFrameTime v; fps := fps v; created := created v;
     subscriptions := subscriptions v; receivedMessage := receivedMessage v;
     timers := x; handled := handled v; signals := signals v |}.

Definition set_handled (x : list Handled) (v : t) : t :=
  {| cameraTopic := cameraTopic v; cameraSubscriber := cameraSubscriber v;
     canvas := canvas v; connectionStatus := connectionStatus v;
     statusBar := statusBar v; frameCount := frameCount v;
     lastFrameTime := lastFrameTime v; fps := fps v; created := created v;
     subscriptions := subscriptions v; receivedMessage := receivedMessage v;
     timers := timers v; handled := x; signals := signals v |}.

Definition set_signals (x : list (string * string)) (v : t) : t :=
  {| cameraTopic := cameraTopic v; cameraSubscriber := cameraSubscriber v;
     canvas := canvas v; connectionStatus := connectionStatus v;
     statusBar := statusBar v; frameCount := frameCount v;
     lastFrameTime := lastFrameTime v; fps := fps v; created := created v;
     subscriptions := subscriptions v; receivedMessage := receivedMessage v;
     timers := timers v; handled := handled v; signals := x |}.

Definition status_color (status : string) : string :=
  if String.eqb status "connected" then "#00FF00"
  else if String.eqb status "connecting" then "#FDB913"
  else if String.eqb status "disconnected" then "#FF0000"
  else "#FDB913".

Definition updateStatus (status message : string) (v : t) : t :=
  let v := set_connectionStatus status v in
  let v := set_statusBar
             {| color := status_color status; textContent := message |} v in
  set_signals (signals v ++ [(status, message)]) v.

(** [updateFPS]; [now] is the value of [Date.now()]. *)
Definition updateFPS (now : Z) (v : t) : t :=
  let v := set_frameCount (frameCount v + 1) v in
  let elapsed := (now - lastFrameTime v)%Z in
  if (1000 <=? elapsed)%Z then
    let v := set_fps (Math_round_div (frameCount v * 1000) elapsed) v in
    let v := updateStatus "connected"
               ("✓ Camera Connected (" +:+ pretty (fps v) +:+ " FPS)") v in
    let v := set_frameCount 0 v in
    set_lastFrameTime now v
  else v.

(** [!data || data.length === 0]. *)
Definition no_data (d : Data) : bool :=
  match d with
  | NoData => true
  | Text s => (String.length s =? 0)%nat
  | Binary l => (length l =? 0)%nat
  end.

(** The [Uint8Array] made from [data]: [atob] and [charCodeAt] for a
    string, element-wise conversion modulo 256 for an array. *)
Definition to_byteArray (d : Data) : option (list Z) :=
  match d with
  | NoData => Some []
  | Text s => atob s
  | Binary l => Some ((fun x => x mod 256)%Z <$> l)
  end.

(** [byteArray[i]] as it lands in the clamped array: out of range reads
    [undefined], stored as 0. *)
Definition rd (byteArray : list Z) (i : nat) : Z := default 0%Z (byteArray !! i).

(** The five conversion loops on [imageData.data]; a write past the end of
    a typed array is ignored, as [<[_:=_]>] does. *)
Definition rgb8_body (byteArray : list Z) (i : nat) (d : list Z) : list Z :=
  let idx := (i / 3 * 4)%nat in
  let d := <[idx := rd byteArray i]> d in
  let d := <[idx + 1 := rd byteArray (i + 1)]> d in
  let d := <[idx + 2 := rd byteArray (i + 2)]> d in
  <[idx + 3 := 255%Z]> d.

Definition bgr8_body (byteArray : list Z) (i : nat) (d : list Z) : list Z :=
  let idx := (i / 3 * 4)%nat in
  let d := <[idx := rd byteArray (i + 2)]> d in
  let d := <[idx + 1 := rd byteArray (i + 1)]> d in
  let d := <[idx + 2 := rd byteArray i]> d in
  <[idx + 3 := 255%Z]> d.

Definition rgba8_body (byteArray : list Z) (i : nat) (d : list Z) : list Z :=
  <[i := rd byteArray i]> d.

Definition bgra8_body (byteArray : list Z) (i : nat) (d : list Z) : list Z :=
  let d := <[i := rd byteArray (i + 2)]> d in
  let d := <[i + 1 := rd byteArray (i + 1)]> d in
  let d := <[i + 2 := rd byteArray i]> d in
  <[i + 3 := rd byteArray (i + 3)]> d.

Definition mono8_body (byteArray : list Z) (i : nat) (d : list Z) : list Z :=
  let idx := (i * 4)%nat in
  let gray := rd byteArray i in
  let d := <[idx := gray]> d in
  let d := <[idx + 1 := gray]> d in
  let d := <[idx + 2 := gray]> d in
  <[idx + 3 := 255%Z]> d.

(** The [if / else if] chain on [encoding]; [None] is the final [else]. *)
Definition convert (encoding : string) (byteArray : list Z) (d : list Z)
    : option (list Z) :=
  let len := length byteArray in
  if String.eqb encoding "rgb8" then
    Some (for_loop len 0 3 len (rgb8_body byteArray) d)
  else if String.eqb encoding "bgr8" then
    Some (for_loop len 0 3 len (bgr8_body byteArray) d)
  else if String.eqb encoding "rgba8" then
    Some (for_loop len 0 1 len (rgba8_body byteArray) d)
  else if String.eqb encoding "bgra8" then
    Some (for_loop len 0 4 len (bgra8_body byteArray) d)
  else if String.eqb encoding "mono8" || String.eqb encoding "grayscale" then
    Some (for_loop len 0 1 len (mono8_body byteArray) d)
  else None.

(** Assigning [canvas.width] or [canvas.height] resets the backing store to
    transparent black at the new size. *)
Definition resize (w h : nat) (c : Canvas) : Canvas :=
  if bool_decide (canvas_width c ≠ w) || bool_decide (canvas_height c ≠ h)
  then {| canvas_width := w; canvas_height := h;
          pixels := replicate (w * h * 4) 0%Z |}
  else c.

(** [ctx.createImageData(width, height)]: throws [IndexSizeError] when a
    dimension is zero; the buffer starts as transparent black. *)
Definition createImageData (w h : nat) : option (list Z) :=
  if ((w =? 0) || (h =? 0))%nat then None
  else Some (replicate (w * h * 4) 0%Z).

(** [ctx.putImageData(imageData, 0, 0)] on a canvas of the same size. *)
Definition putImageData (d : list Z) (c : Canvas) : Canvas :=
  {| canvas_width := canvas_width c; canvas_height := canvas_height c;
     pixels := d |}.

Definition handleRawImage (now : Z) (message : Image) (v : t) : Outcome * t :=
  let v := set_handled (handled v ++ [HandledRaw message]) v in
  let v := updateFPS now v in
  if no_data (data message) then (DroppedNoData, v)
  else
    let v := set_canvas (resize (width message) (height message) (canvas v)) v in
    match to_byteArray (data message) with
    | None => (Threw, v)
    | Some byteArray =>
        match createImageData (width message) (height message) with
        | None => (Threw, v)
        | Some imageData =>
            match convert (encoding message) byteArray imageData with
            | None => (DroppedUnsupported, v)
            | Some imageData =>
                (Rendered, set_canvas (putImageData imageData (canvas v)) v)
            end
        end
    end.

(** [handleCompressedImage], up to handing the data URL to the host's image
    loader, which decodes and draws on its own later. *)
Definition handleCompressedImage (now : Z) (message : CompressedImage) (v : t)
    : t :=
  let v := set_handled (handled v ++ [HandledCompressed message]) v in
  updateFPS now v.

(** [new ROSLIB.Topic({ros, name, messageType})]. *)
Definition new_Topic (nm ty : string) (v : t) : Topic * t :=
  ({| topic_id := created v; name := nm; messageType := ty |},
   set_created (S (created v)) v).

(** [topic.subscribe(callback)] registers the callback with the bridge;
    [topic.unsubscribe()], called without a callback, removes every
    listener of that topic object and stops its stream. *)
Definition subscribe (tp : Topic) (cb : Callback) (v : t) : t :=
  set_subscriptions
    (subscriptions v ++ [{| sub_topic := tp; sub_callback := cb |}]) v.

Definition unsubscribe (tp : Topic) (v : t) : t :=
  set_subscriptions
    (filter (fun s => topic_id (sub_topic s) ≠ topic_id tp) (subscriptions v))
    v.

(** [setTimeout] returns the handle of the new timer; [clearTimeout]
    removes the timer with that handle, if it is still pending. *)
Definition setTimeout (cb : TimerCallback) (ms : Z) (v : t) : nat * t :=
  let id := created v in
  (id, set_timers (timers v ++ [{| timer_id := id; delay := ms;
                                   callback := cb |}])
         (set_created (S id) v)).

Definition clearTimeout (id : nat) (v : t) : t :=
  set_timers (filter (fun tm => timer_id tm ≠ id) (timers v)) v.

Definition subscribeRawImage (v : t) : t :=
  let v := updateStatus "connecting" "Waiting for raw images..." v in
  let '(tp, v) := new_Topic (cameraTopic v) "sensor_msgs/Image" v in
  let v := set_cameraSubscriber (Some tp) v in
  subscribe tp RawCallback v.

(** The callback of the 3000 ms timer. With no [cameraSubscriber] the call
    of [unsubscribe] would throw and end the callback. *)
Definition probe_timeout (probe : nat) (v : t) : t :=
  if negb (default false (receivedMessage v !! probe)) then
    let v := updateStatus "connecting" "Trying raw image topic..." v in
    match cameraSubscriber v with
    | Some tp => subscribeRawImage (unsubscribe tp v)
    | None => v
    end
  else v.

Definition compressed_callback (probe timeout : nat) (now : Z)
    (message : CompressedImage) (v : t) : t :=
  let v := set_receivedMessage (<[probe := true]> (receivedMessage v)) v in
  let v := clearTimeout timeout v in
  handleCompressedImage now message v.

Definition raw_callback (now : Z) (message : Image) (v : t) : t :=
  snd (handleRawImage now message v).

Definition subscribeCompressedImage (v : t) : t :=
  let '(tp, v) :=
    new_Topic (cameraTopic v +:+ "/compressed") "sensor_msgs/CompressedImage"
      v in
  let v := set_cameraSubscriber (Some tp) v in
  let probe := length (receivedMessage v) in
  let v := set_receivedMessage (receivedMessage v ++ [false]) v in
  let '(timeout, v) := setTimeout (ProbeTimeout probe) 3000 v in
  subscribe tp (CompressedCallback probe timeout) v.

(** [subscribeToCamera]; [listTopics] only writes to the console. *)
Definition subscribeToCamera (v : t) : t := subscribeCompressedImage v.

(** A callback applied to a message of its topic's type; the bridge types
    its topics, so the other combinations do not arise. *)
Definition run_callback (cb : Callback) (now : Z) (message : Message) (v : t)
    : t :=
  match cb, message with
  | CompressedCallback probe timeout, Compressed m =>
      compressed_callback probe timeout now m v
  | RawCallback, Raw m => raw_callback now m v
  | _, _ => v
  end.

(** The bridge hands a message to the callbacks subscribed under the
    message's topic name. *)
Definition deliver (nm : string) (now : Z) (message : Message) (v : t) : t :=
  foldl (fun v s =>
           if String.eqb (name (sub_topic s)) nm
           then run_callback (sub_callback s) now message v
           else v)
        v (subscriptions v).

(** The events of one bridge session: the pending timer with handle [id]
    fires, or a message arrives from the bridge at time [now]. *)
Inductive Event :=
  | TimerFires (id : nat)
  | MessageArrives (now : Z) (nm : string) (message : Message).

Definition step (e : Event) (v : t) : t :=
  match e with
  | TimerFires id =>
      match filter (fun tm => timer_id tm = id) (timers v) with
      | tm :: _ =>
          match callback tm with
          | ProbeTimeout probe => probe_timeout probe (clearTimeout id v)
          end
      | [] => v
      end
  | MessageArrives now nm message => deliver nm now message v
  end.

Definition run (es : list Event) (v : t) : t :=
  foldl (fun v e => step e v) v es.

(** The object when its bridge session opens: the canvas and counters as
    given, nothing subscribed and no timer pending. *)
Definition session (topic : string) (cv : Canvas) (now : Z) : t :=
  {| cameraTopic := topic; cameraSubscriber := None; canvas := cv;
     connectionStatus := "connected";
     statusBar := {| color := "#00FF00";
                     textContent := "✓ Camera Connected" |};
     frameCount := 0; lastFrameTime := now; fps := 0; created := 0;
     subscriptions := []; receivedMessage := []; timers := [];
     handled := []; signals := [] |}.

(** *** Vocabulary of the properties *)

(** The byte payloads of the pixels [ps], three bytes a pixel, in the
    channel order of the [rgb8] and of the [bgr8] encoding. *)
Fixpoint rgb8_bytes (ps : list (Z * Z * Z)) : list Z :=
  match ps with
  | [] => []
  | (r, g, b) :: ps' => r :: g :: b :: rgb8_bytes ps'
  end.

Fixpoint bgr8_bytes (ps : list (Z * Z * Z)) : list Z :=
  match ps with
  | [] => []
  | (r, g, b) :: ps' => b :: g :: r :: bgr8_bytes ps'
  end.

(** The encodings with a branch in the decoder. *)
Definition supported_encoding (e : string) : bool :=
  bool_decide (e ∈ ["rgb8"; "bgr8"; "rgba8"; "bgra8"; "mono8"; "grayscale"]).

(** What [handleRawImage] does to the canvas, and how it ends. *)
Definition decode_raw (message : Image) (c : Canvas) : Outcome * Canvas :=
  if no_data (data message) then (DroppedNoData, c)
  else
    let c := resize (width message) (height message) c in
    match to_byteArray (data message) with
    | None => (Threw, c)
    | Some byteArray =>
        match createImageData (width message) (height message) with
        | None => (Threw, c)
        | Some imageData =>
            match convert (encoding message) byteArray imageData with
            | None => (DroppedUnsupported, c)
            | Some imageData => (Rendered, putImageData imageData c)
            end
        end
    end.

(** The subscription [subscribeRawImage] makes on the third object of a
    session (after the compressed topic and its timer). *)
Definition raw_subscription (topic : string) : Subscription :=
  {| sub_topic := {| topic_id := 2; name := topic;
                     messageType := "sensor_msgs/Image" |};
     sub_callback := RawCallback |}.

Definition is_compressed_call (h : Handled) : bool :=
  match h with
  | HandledCompressed _ => true
  | HandledRaw _ => false
  end.

(** How many compressed messages reached [handleCompressedImage]. *)
Definition compressed_calls (v : t) : nat :=
  length (filter (fun h => is_compressed_call h = true) (handled v)).

(** How many times the fallback branch of the timer callback ran: it is
    the only sender of this signal. *)
Definition fallback_runs (v : t) : nat :=
  length (filter (fun sg => sg = ("connecting", "Trying raw image topic..."))
            (signals v)).

(** Events that deliver no compressed message and do not fire the probe
    timer (whose handle is 1 in a session). *)
Definition quiet (topic : string) (e : Event) : bool :=
  match e with
  | TimerFires id => negb (id =? 1)%nat
  | MessageArrives _ nm _ => negb (String.eqb (topic +:+ "/compressed") nm)
  end.

(** After the fallback: the raw subscription alone, no timer, no
    compressed call so far, the fallback run once. *)
Definition committed_raw (topic : string) (v : t) : Prop :=
  subscriptions v = [raw_subscription topic]
  /\ timers v = []
  /\ compressed_calls v = 0%nat
  /\ fallback_runs v = 1%nat.

End CameraVisualization.

(** ** What the five conversion loops compute *)

Module Pixels.

Import Host CameraVisualization.

(** [src] written over [d] from index [off] on, as far as [d] reaches. *)
Definition overlay (off : nat) (src d : list Z) : list Z :=
  imap (fun j x => if decide (off <= j)%nat
                   then default x (src !! (j - off)%nat) else x) d.

(** The first [n] bytes of [l], filled up with 0 when [l] is shorter. *)
Definition fit (n : nat) (l : list Z) : list Z := list.resize n 0%Z l.

(** The RGBA bytes of a payload, pixel by pixel; a last pixel that the
    payload covers in part reads its missing bytes as 0. *)
Fixpoint rgba_of_rgb8 (bytes : list Z) : list Z :=
  match bytes with
  | r :: g :: b :: rest => r :: g :: b :: 255 :: rgba_of_rgb8 rest
  | [r; g] => [r; g; 0; 255]
  | [r] => [r; 0; 0; 255]
  | [] => []
  end%Z.

Fixpoint rgba_of_bgr8 (bytes : list Z) : list Z :=
  match bytes with
  | b :: g :: r :: rest => r :: g :: b :: 255 :: rgba_of_bgr8 rest
  | [b; g] => [0; g; b; 255]
  | [b] => [0; 0; b; 255]
  | [] => []
  end%Z.

Fixpoint rgba_of_bgra8 (bytes : list Z) : list Z :=
  match bytes with
  | b :: g :: r :: a :: rest => r :: g :: b :: a :: rgba_of_bgra8 rest
  | [b; g; r] => [r; g; b; 0]
  | [b; g] => [0; g; b; 0]
  | [b] => [0; 0; b; 0]
  | [] => []
  end%Z.

Fixpoint rgba_of_mono8 (bytes : list Z) : list Z :=
  match bytes with
  | gray :: rest => gray :: gray :: gray :: 255 :: rgba_of_mono8 rest
  | [] => []
  end%Z.

(** The RGBA bytes of a payload under each pixel encoding the decoder
    knows; [None] for every other tag. *)
Definition rgba_of (encoding : string) (bytes : list Z) : option (list Z) :=
  if String.eqb encoding "rgb8" then Some (rgba_of_rgb8 bytes)
  else if String.eqb encoding "bgr8" then Some (rgba_of_bgr8 bytes)
  else if String.eqb encoding "rgba8" then Some bytes
  else if String.eqb encoding "bgra8" then Some (rgba_of_bgra8 bytes)
  else if String.eqb encoding "mono8" then Some (rgba_of_mono8 bytes)
  else if String.eqb encoding "grayscale" then Some (rgba_of_mono8 bytes)
  else None.

(** The RGBA bytes of a list of colours, and of a list of gray levels,
    with full opacity. *)
Definition rgba_pixels (ps : list (Z * Z * Z)) : list Z :=
  ps ≫= (fun '(r, g, b) => [r; g; b; 255%Z]).

Definition gray_pixels (gs : list Z) : list Z :=
  gs ≫= (fun g => [g; g; g; 255%Z]).

(** A byte value. *)
Definition is_byte (x : Z) : Prop := (0 <= x < 256)%Z.


Definition is_colour (p : Z * Z * Z) : Prop :=
  let '(r, g, b) := p in is_byte r /\ is_byte g /\ is_byte b.

End Pixels.

(** ** The camera page: the object with its bridge connection *)

Module CameraPage.

Import CameraVisualization.

(** The compressed subscription [subscribeCompressedImage] makes first in a
    session: topic object 0, closure cell 0, timer handle 1. *)
Definition compressed_subscription (topic : string) : Subscription :=
  {| sub_topic := {| topic_id := 0; name := topic +:+ "/compressed";
                     messageType := "sensor_msgs/CompressedImage" |};
     sub_callback := CompressedCallback 0 1 |}.

(** How many raw messages reached [handleRawImage]. *)
Definition raw_calls (v : t) : nat :=
  length (filter (fun h => is_compressed_call h = false) (handled v)).

(** After a compressed message: the compressed subscription alone, no
    timer, no fallback and no raw call so far, a compressed call made. *)
Definition committed_compressed (topic : string) (v : t) : Prop :=
  subscriptions v = [compressed_subscription topic]
  /\ timers v = []
  /\ fallback_runs v = 0%nat
  /\ raw_calls v = 0%nat
  /\ (1 <= compressed_calls v)%nat.

(** The frame counter and the FPS figure are not negative. *)
Definition counters_nonneg (v : t) : Prop :=
  (0 <= frameCount v)%Z /\ (0 <= fps v)%Z.

(** [this.ros] beside the fields of the camera object. *)
Record page := {
  camera : t;
  ros : option LaserScanVisualization.Ros
}.

(** [disconnect] of [CameraVisualization]. *)
Definition disconnect (p : page) : page :=
  {| camera := match cameraSubscriber (camera p) with
               | Some tp => unsubscribe tp (camera p)
               | None => camera p
               end;
     ros := match ros p with
            | Some r => Some (LaserScanVisualization.ros_close r)
            | None => None
            end |}.

End CameraPage.

(** ** Vocabulary for the navigation status handler *)

Module Navigation.

Import LaserScanVisualization.

(** The codes of the [default] branch of the status switch: every code but
    ACTIVE, SUCCEEDED, ABORTED and REJECTED. *)
Definition other_code (c : Z) : bool :=
  negb ((c =? 1) || (c =? 3) || (c =? 4) || (c =? 5))%Z.

(** The status bar agrees with the stored status: its colour is the one of
    [connectionStatus], and status and text are those of the last
    [updateStatus] call. *)
Definition status_consistent (v : t) : Prop :=
  color (statusBar v) = status_color (connectionStatus v)
  /\ last (signals v) = Some (connectionStatus v, textContent (statusBar v)).

(** Topic objects are told apart by their ids: every subscribed topic was
    made before the next id to be given out. *)
Definition ids_fresh (v : t) : Prop :=
  Forall (fun s => (topic_id (sub_topic s) < created v)%nat) (subscriptions v).

(** The three subscriptions a connection event makes, the first topic
    object of the connection having id [c]: the goal and cancel publishers
    take the two ids in between. *)
Definition scan_subscription (c : nat) : Subscription :=
  {| sub_topic := {| topic_id := c; name := "/world";
                     messageType := "sensor_msgs/LaserScan" |};
     sub_callback := ScanCallback |}.

Definition path_subscription (c : nat) : Subscription :=
  {| sub_topic := {| topic_id := 3 + c; name := "/move_base/NavfnROS/plan";
                     messageType := "nav_msgs/Path" |};
     sub_callback := PathCallback |}.

Definition status_subscription (c : nat) : Subscription :=
  {| sub_topic := {| topic_id := 4 + c; name := "/move_base/status";
                     messageType := "actionlib_msgs/GoalStatusArray" |};
     sub_callback := StatusCallback |}.

End Navigation.

(** ** Commands: [sendGoal], [publishNavigationGoal], [cancelNavigation] *)

Module Commands.

Import LaserScanVisualization.

Local Open Scope float_scope.

Record Stamp := { secs : Z; nsecs : Z }.

(** [geometry_msgs/PoseStamped] and [actionlib_msgs/GoalID], as the two
    methods build them. *)
Record PoseStamped := {
  frame_id : string;
  stamp : Stamp;
  position : float * float * float;
  orientation : float * float * float * float
}.

Record GoalID := { cancel_stamp : Stamp; id : string }.

(** A call of [publish] on a topic object. *)
Inductive Published :=
  | PublishedGoal (topic : Topic) (message : PoseStamped)
  | PublishedCancel (topic : Topic) (message : GoalID).

(** The object with the messages it has handed to the bridge. *)
Record client := { viz : t; published : list Published }.

(** A method of the visualisation that publishes nothing, run on the
    client. *)
Definition on_viz (f : t -> t) (c : client) : client :=
  {| viz := f (viz c); published := published c |}.

(** The stamp of a goal: [Math.floor(Date.now() / 1000)] and
    [(Date.now() % 1000) * 1000000], for the two readings of the clock.
    The clock counts whole milliseconds, and below 2^53 the double
    quotient has the floor of the exact one; [%] keeps the sign of the
    clock reading. *)
Definition goal_stamp (now1 now2 : Z) : Stamp :=
  {| secs := (now1 / 1000)%Z; nsecs := (Z.rem now2 1000 * 1000000)%Z |}.

Section Publish.

(** [Math.sin], [Math.cos] and [Number.prototype.toFixed(2)] of the host. *)
Variables Math_sin Math_cos : float -> float.
Variable toFixed2 : float -> string.

Definition publishNavigationGoal (now1 now2 : Z) (x y yaw : float)
    (c : client) : client :=
  match goalPublisher (viz c) with
  | None => c
  | Some topic =>
      let goalMessage :=
        {| frame_id := "map";
           stamp := goal_stamp now1 now2;
           position := (x, y, 0);
           orientation := (0, 0, Math_sin (yaw / 2), Math_cos (yaw / 2)) |} in
      {| viz := updateStatus "connected"
                  ("✓ Goal Published! Moving to (" +:+ toFixed2 x +:+ ", "
                   +:+ toFixed2 y +:+ ")") (viz c);
         published := published c ++ [PublishedGoal topic goalMessage] |}
  end.

(** [sendGoal]; the yaw parameter takes its default, 0. *)
Definition sendGoal (now1 now2 : Z) (c : client) : client :=
  match goalPosition (viz c) with
  | None => c
  | Some (x, y) => publishNavigationGoal now1 now2 x y 0 c
  end.

End Publish.

Definition cancelNavigation (c : client) : client :=
  match cancelPublisher (viz c) with
  | None => c
  | Some topic =>
      let cancelMessage :=
        {| cancel_stamp := {| secs := 0; nsecs := 0 |}; id := EmptyString |} in
      let v := updateStatus "connected" "✓ Navigation Canceled" (viz c) in
      {| viz := clearGoal v;
         published := published c ++ [PublishedCancel topic cancelMessage] |}
  end.

End Commands.

(** ** The planned path: [updatePath] *)

Module Path.

Local Open Scope float_scope.

(** [nav_msgs/Path] poses, as far as [updatePath] reads them. *)
Record Point := { x : float; y : float; z : float }.

Record Pose := { position : Point }.

Record PoseStamped := { pose : Pose }.

(** [this.pathLine]: its visibility, and the array [positions] its
    position attribute was last built from (the attribute holds a copy of
    it in 32-bit floats). *)
Record Line := { visible : bool; positions : list float }.

(** The double that the literal [0.1] denotes. *)
Definition tenth : float := 0x1.999999999999ap-4.

(** The loop over [poses], pushing three numbers a pose. *)
Fixpoint path_loop (rest : list PoseStamped) (positions : list float)
    : list float :=
  match rest with
  | [] => positions
  | p :: rest' =>
      let pose := pose p in
      path_loop rest'
        (positions ++ [x (position pose); y (position pose); tenth])
  end.

(** [updatePath(poses)]; [poses] may be missing from the message. *)
Definition updatePath (poses : option (list PoseStamped)) (line : Line)
    : Line :=
  match poses with
  | None => {| visible := false; positions := positions line |}
  | Some l =>
      if (length l =? 0)%nat
      then {| visible := false; positions := positions line |}
      else {| visible := true; positions := path_loop l [] |}
  end.

End Path.

(** * Properties *)

(** ** Scan decoding *)

Section ScanFacts.

Import Scan.
Local Open Scope float_scope.

Variables Math_cos Math_sin : float -> float.

Local Abbreviation spec_reading := (Scan.spec_reading Math_cos Math_sin).
Local Abbreviation scan_loop := (Scan.scan_loop Math_cos Math_sin).
Local Abbreviation updateLaserScan := (Scan.updateLaserScan Math_cos Math_sin).
Local Abbreviation spec_positions := (Scan.spec_positions Math_cos Math_sin).
Local Abbreviation spec_colors := (Scan.spec_colors Math_cos Math_sin).

Lemma spec_reading_code sd k range :
  spec_reading sd k range =
  if invalid_reading sd range then ([], [])
  else
    let angle := angle_min sd + js_index k * angle_increment sd in
    ([range * Math_cos angle; range * Math_sin angle; 0],
     [1; (range - range_min sd) / (range_max sd - range_min sd); 0]).
Proof.
  unfold spec_reading, invalid_reading.
  destruct (is_nan range), (range <? range_min sd), (range_max sd <? range);
    reflexivity.
Qed.

Lemma imap_spec_reading_shift sd k rest
    (proj : list float * list float -> list float) :
  imap (fun j r => proj (spec_reading sd (S k + j) r)) rest =
  imap ((fun j r => proj (spec_reading sd (k + j) r)) ∘ S) rest.
Proof.
  apply imap_ext. intros j r _. cbn. by rewrite Nat.add_succ_r.
Qed.

(** The loop started at reading [k] with arrays [ps] and [cs] appends the
    contributions of the remaining readings, in order. *)
Lemma scan_loop_spec sd rest : forall k ps cs,
  scan_loop sd (js_index k) rest ps cs =
  (ps ++ concat (imap (fun j r => fst (spec_reading sd (k + j) r)) rest),
   cs ++ concat (imap (fun j r => snd (spec_reading sd (k + j) r)) rest)).
Proof.
  induction rest as [|range rest IH]; intros k ps cs.
  - cbn. by rewrite !app_nil_r.
  - cbn [Scan.scan_loop imap concat].
    change (js_index k + 1) with (js_index (S k)).
    rewrite Nat.add_0_r, spec_reading_code.
    destruct (invalid_reading sd range);
      rewrite IH, !imap_spec_reading_shift; cbn [fst snd];
      by rewrite ?app_nil_l, <- ?app_assoc.
Qed.

(** Either array holds three entries for each reading that passes the
    test, and none for the others. *)
Lemma spec_lengths sd rest : forall k,
  length (concat (imap (fun j r => fst (spec_reading sd (k + j) r)) rest)) =
    (3 * length (filter (fun r => invalid_reading sd r = false) rest))%nat
  /\ length (concat (imap (fun j r => snd (spec_reading sd (k + j) r)) rest)) =
    (3 * length (filter (fun r => invalid_reading sd r = false) rest))%nat.
Proof.
  induction rest as [|range rest IH]; intros k; [done|].
  cbn [imap concat]. rewrite !length_app, filter_cons.
  rewrite <- !imap_spec_reading_shift.
  destruct (IH (S k)) as [-> ->].
  rewrite Nat.add_0_r, spec_reading_code.
  destruct (invalid_reading sd range); case_decide; try done;
    cbn [fst snd length]; split; lia.
Qed.

(** C2. The two arrays built by [updateLaserScan] are the concatenation,
    in index order, of what each reading contributes: a reading that is
    NaN, below [range_min] or above [range_max] contributes no entry to
    either array; every other reading at index [k] contributes the one
    position [(range * cos angle, range * sin angle, 0)] with
    [angle = angle_min + k * angle_increment], and one colour. *)
Theorem updateLaserScan_readings (sd : ScanData) :
  updateLaserScan sd = (spec_positions sd, spec_colors sd)
  /\ length (fst (updateLaserScan sd)) =
     (3 * length (filter (fun r => invalid_reading sd r = false) (ranges sd)))%nat
  /\ length (snd (updateLaserScan sd)) =
     (3 * length (filter (fun r => invalid_reading sd r = false) (ranges sd)))%nat
  /\ (forall k range,
        is_nan range = true \/ (range <? range_min sd) = true
        \/ (range_max sd <? range) = true ->
        spec_reading sd k range = ([], []))
  /\ (forall k range,
        is_nan range = false -> (range <? range_min sd) = false ->
        (range_max sd <? range) = false ->
        spec_reading sd k range =
        ([range * Math_cos (angle_min sd + js_index k * angle_increment sd);
          range * Math_sin (angle_min sd + js_index k * angle_increment sd);
          0],
         [1; (range - range_min sd) / (range_max sd - range_min sd); 0])).
Proof.
  assert (Hcode : updateLaserScan sd = (spec_positions sd, spec_colors sd)).
  { unfold Scan.updateLaserScan, Scan.spec_positions, Scan.spec_colors.
    change 0 with (js_index 0) at 1. by rewrite scan_loop_spec. }
  split; [done|]. rewrite Hcode. cbn [fst snd].
  split; [apply (spec_lengths sd (ranges sd) 0)|].
  split; [apply (spec_lengths sd (ranges sd) 0)|].
  split.
  - intros k range H. unfold Scan.spec_reading.
    destruct (is_nan range); [done|].
    destruct (range <? range_min sd); [done|].
    destruct (range_max sd <? range); [done|].
    by destruct H as [H|[H|H]].
  - intros k range H1 H2 H3. unfold Scan.spec_reading.
    by rewrite H1, H2, H3.
Qed.

(** *** Equal range bounds

    Two doubles neither of which is below the other differ by a zero or by
    NaN, so with [range_max == range_min] the normalisation of a retained
    reading divides a zero or NaN by a zero or NaN. *)
Lemma SFsub_incomparable (x y : spec_float) :
  SFltb x y = false -> SFltb y x = false ->
  SF64sub x y = S754_nan \/ exists s, SF64sub x y = S754_zero s.
Proof.
  unfold SFltb, SF64sub.
  destruct x as [sx|sx| |sx mx ex], y as [sy|sy| |sy my ey];
    try destruct sx; try destruct sy; cbn; intros H1 H2;
    try discriminate; eauto.
  all: rewrite (Z.compare_antisym ex ey) in H2;
    destruct (Z.compare ex ey) eqn:Ee; cbn in H1, H2; try discriminate;
    change (Pos.compare_cont Eq mx my) with (Pos.compare mx my) in *;
    change (Pos.compare_cont Eq my mx) with (Pos.compare my mx) in *;
    rewrite (Pos.compare_antisym mx my) in H2;
    destruct (Pos.compare mx my) eqn:Em; cbn in H1, H2; try discriminate;
    apply Z.compare_eq in Ee; apply Pos.compare_eq in Em; subst;
    rewrite Z.sub_diag; eauto.
Qed.

Lemma SFdiv_zero_or_nan (x y : spec_float) :
  (x = S754_nan \/ exists s, x = S754_zero s) ->
  (y = S754_nan \/ exists s, y = S754_zero s) ->
  SF64div x y = S754_nan.
Proof. intros [->|[s ->]] [->|[s' ->]]; reflexivity. Qed.

Lemma is_nan_Prim2SF (x : float) : Prim2SF x = S754_nan -> is_nan x = true.
Proof. unfold is_nan. rewrite FloatAxioms.eqb_spec. by intros ->. Qed.

(** Doubles that compare equal (such as the two zeros) are below and
    above the same doubles. *)
Lemma SFeqb_ltb (x y : spec_float) :
  SFeqb x y = true ->
  SFltb x y = false /\ SFltb y x = false
  /\ forall z, SFltb x z = SFltb y z.
Proof.
  unfold SFeqb, SFltb.
  destruct x as [sx|sx| |sx mx ex], y as [sy|sy| |sy my ey];
    try destruct sx; try destruct sy; cbn; intros H;
    try discriminate; try (by repeat split; intros [[]|[]| |[] ? ?]).
  all: destruct (Z.compare ex ey) eqn:Ee; try discriminate;
    change (Pos.compare_cont Eq mx my) with (Pos.compare mx my) in *;
    destruct (Pos.compare mx my) eqn:Em; try discriminate;
    apply Z.compare_eq in Ee; apply Pos.compare_eq in Em; subst;
    rewrite Z.compare_refl;
    change (Pos.compare_cont Eq my my) with (Pos.compare my my);
    by rewrite Pos.compare_refl.
Qed.

Lemma green_equal_bounds (range lo hi : float) :
  (hi =? lo) = true ->
  (range <? lo) = false -> (hi <? range) = false ->
  is_nan ((range - lo) / (hi - lo)) = true.
Proof.
  rewrite FloatAxioms.eqb_spec, !FloatAxioms.ltb_spec. intros Heq H1 H2.
  destruct (SFeqb_ltb _ _ Heq) as (Hhl & Hlh & Hsame).
  rewrite Hsame in H2. apply is_nan_Prim2SF.
  rewrite FloatAxioms.div_spec, !FloatAxioms.sub_spec.
  by apply SFdiv_zero_or_nan; apply SFsub_incomparable.
Qed.

Lemma spec_colors_equal_bounds sd rest :
  (range_max sd =? range_min sd) = true ->
  forall k, exists greens,
    concat (imap (fun j r => snd (spec_reading sd (k + j) r)) rest) =
      greens ≫= (fun g => [1; g; 0])
    /\ Forall (fun g => is_nan g = true) greens
    /\ length greens =
       length (filter (fun r => invalid_reading sd r = false) rest).
Proof.
  intros Hbounds. induction rest as [|range rest IH]; intros k.
  - by exists [].
  - destruct (IH (S k)) as (greens & Hcolors & Hnan & Hlen).
    cbn [imap concat]. rewrite <- imap_spec_reading_shift, Hcolors.
    rewrite Nat.add_0_r, spec_reading_code, filter_cons.
    destruct (invalid_reading sd range) eqn:Hinv; case_decide; try done.
    + by exists greens.
    + exists ((range - range_min sd) / (range_max sd - range_min sd) :: greens).
      cbn [snd length]. split; [done|]. split; [|by rewrite Hlen].
      constructor; [|done]. unfold invalid_reading in Hinv.
      apply orb_false_iff in Hinv as [[_ Hlo]%orb_false_iff Hhi].
      by apply green_equal_bounds.
Qed.

(** C3. In every frame with [range_max == range_min], the colour of every
    retained reading has NaN in its green channel: the colour array is one
    triple [1, g, 0] per retained reading, and each [g] is NaN. *)
Theorem updateLaserScan_equal_bounds_nan (sd : ScanData) :
  (range_max sd =? range_min sd) = true ->
  exists greens,
    snd (updateLaserScan sd) = greens ≫= (fun g => [1; g; 0])
    /\ Forall (fun g => is_nan g = true) greens
    /\ length greens =
       length (filter (fun r => invalid_reading sd r = false) (ranges sd)).
Proof.
  intros Hbounds.
  destruct (spec_colors_equal_bounds sd (ranges sd) Hbounds 0)
    as (greens & Hcolors & Hnan & Hlen).
  exists greens. split; [|done]. rewrite <- Hcolors.
  unfold Scan.updateLaserScan. change 0 with (js_index 0) at 1.
  by rewrite scan_loop_spec.
Qed.

(** The same by evaluation, at two frames with [range_max = range_min]:
    each retained reading gets a colour whose green channel is NaN, the
    value of [0 / 0], not 0. *)
Example updateLaserScan_equal_bounds_green :
  snd (updateLaserScan
         {| ranges := [2.5]; angle_min := 0; angle_max := 0;
            angle_increment := 0; range_min := 2.5; range_max := 2.5 |})
  = [1; nan; 0]
  /\ snd (updateLaserScan
            {| ranges := [0.5; 4; 4; infinity; 4]; angle_min := -1;
               angle_max := 1; angle_increment := 0.5; range_min := 4;
               range_max := 4 |})
     = [1; nan; 0; 1; nan; 0; 1; nan; 0]
  /\ is_nan ((2.5 - 2.5) / (2.5 - 2.5)) = true.
Proof.
  split; [|split].
  - reflexivity.
  - reflexivity.
  - reflexivity.
Qed.

End ScanFacts.

Lemma updateLaserScan_equal_bounds_nan_witness :
  let sd := {| Scan.ranges := [2.5; 1; 2.5]%float; Scan.angle_min := 0;
               Scan.angle_max := 0; Scan.angle_increment := 0;
               Scan.range_min := 2.5; Scan.range_max := 2.5 |} in
  (Scan.range_max sd =? Scan.range_min sd)%float = true
  /\ exists greens,
       snd (Scan.updateLaserScan (fun _ => 1%float) (fun _ => 0%float) sd) =
         greens ≫= (fun g => [1; g; 0]%float)
       /\ Forall (fun g => is_nan g = true) greens
       /\ length greens =
          length (filter (fun r => Scan.invalid_reading sd r = false)
                    (Scan.ranges sd)).
Proof.
  cbv zeta. split; [reflexivity|].
  apply updateLaserScan_equal_bounds_nan. reflexivity.
Defined.

(** A frame whose beam angle is 0 throughout, where [cos] is 1 and [sin]
    is 0: of the five readings, the NaN, the one below [range_min] and the
    one above [range_max] leave no entry, the other two leave a position
    and a colour each. *)
Lemma updateLaserScan_readings_witness :
  Scan.updateLaserScan (fun _ => 1%float) (fun _ => 0%float)
    {| Scan.ranges := [nan; 0.25; 1.5; 50; 4.5]%float;
       Scan.angle_min := 0; Scan.angle_max := 0; Scan.angle_increment := 0;
       Scan.range_min := 0.5; Scan.range_max := 8.5 |}
  = ([1.5; 0; 0; 4.5; 0; 0]%float, [1; 0.125; 0; 1; 0.5; 0]%float).
Proof.
  exact (eq_trans
           (proj1 (updateLaserScan_readings (fun _ => 1%float)
                     (fun _ => 0%float) _))
           eq_refl).
Defined.

(** ** Navigation status and connection lifecycle *)

Section VizFacts.

Import LaserScanVisualization.

Lemma statusCallback_last earlier gid c txt v :
  statusCallback (status_message earlier gid c txt) v =
  handleNavigationStatus {| goal_id := gid; status := c; text := txt |} v.
Proof.
  unfold statusCallback, status_message. cbn [status_list].
  rewrite length_app. cbn [length].
  replace (length earlier + 1 - 1)%nat with (length earlier) by lia.
  rewrite list_lookup_middle by done.
  destruct (Nat.ltb_spec 0 (length earlier + 1)); [done | lia].
Qed.

(** [hideNavigationControls] touches the display of the controls only. *)
Lemma hideNavigationControls_eq v :
  hideNavigationControls v =
  set_navControls (match navControls v with
                   | Some _ => Some "none"
                   | None => None
                   end) v.
Proof. unfold hideNavigationControls. by destruct v as [? ? ? ? ? ? ? ? ? ? ? ? [?|]].
Qed.




(** C9. Handling a status of code 4 or 5 stores ['disconnected'] in
    [connectionStatus] and gives the status bar the disconnected colour,
    while the bridge object and its transport are left as they were. *)
Theorem navigation_failure_marks_disconnected (v : t) (st : GoalStatus) :
  status st = 4%Z \/ status st = 5%Z ->
  connectionStatus (handleNavigationStatus st v) = "disconnected"
  /\ color (statusBar (handleNavigationStatus st v)) = "#FF0000"
  /\ ros (handleNavigationStatus st v) = ros v
  /\ subscriptions (handleNavigationStatus st v) = subscriptions v
  /\ timers (handleNavigationStatus st v) = timers v.
Proof.
  unfold handleNavigationStatus. by intros [-> | ->].
Qed.

Lemma navigation_failure_marks_disconnected_witness :
  let v := step TransportOpen
             (constructor "ws://localhost:9090") in
  let st := {| goal_id := "goal-7"; status := 4; text := "planner failed" |} in
  (connectionStatus v = "connected"
   /\ ros v = Some {| ros_id := 0; url := "ws://localhost:9090";
                      socket := Open |})
  /\ (connectionStatus (handleNavigationStatus st v) = "disconnected"
      /\ color (statusBar (handleNavigationStatus st v)) = "#FF0000"
      /\ ros (handleNavigationStatus st v) = ros v
      /\ subscriptions (handleNavigationStatus st v) = subscriptions v
      /\ timers (handleNavigationStatus st v) = timers v).
Proof.
  split; [split; reflexivity|].
  apply navigation_failure_marks_disconnected. left. reflexivity.
Defined.

(** C10. A status message whose list is missing or empty changes nothing:
    the callback returns the object as it was, with its navigation status,
    goal and connection status, and sends no signal. *)
Theorem statusCallback_no_status (v : t) :
  statusCallback {| status_list := None |} v = v
  /\ statusCallback {| status_list := Some [] |} v = v
  /\ step (StatusMessage {| status_list := None |}) v = v
  /\ step (StatusMessage {| status_list := Some [] |}) v = v
  /\ emitted v (statusCallback {| status_list := Some [] |} v) = [].
Proof.
  repeat split; try reflexivity.
  - cbn. by destruct (has_status_subscription v).
  - cbn. by destruct (has_status_subscription v).
  - unfold emitted. cbn. apply drop_all.
Qed.

(** C8, at the object the constructor leaves: a transport error schedules
    nothing, a transport close schedules the reconnect. *)
Lemma error_schedules_no_retry :
  let v := constructor "ws://localhost:9090" in
  timers (step TransportError v) = []
  /\ timers (step TransportClose v) = [{| delay := 3000; callback := Reconnect |}]
  /\ connectionStatus (step TransportError v) = "disconnected".
Proof. repeat split; reflexivity. Qed.

(** C8, as the code has it: both events store ['disconnected'] and send a
    disconnected signal; the close event alone schedules the one reconnect
    after 3000 ms, the error event leaves the pending timers as they are. *)
Theorem error_and_close_transitions (v : t) :
  connectionStatus (step TransportError v) = "disconnected"
  /\ connectionStatus (step TransportClose v) = "disconnected"
  /\ signals (step TransportError v) =
     signals v ++ [("disconnected", "✗ Connection Error - Check rosbridge")]
  /\ signals (step TransportClose v) =
     signals v ++ [("disconnected", "✗ Disconnected from ROS")]
  /\ timers (step TransportError v) = timers v
  /\ timers (step TransportClose v) =
     timers v ++ [{| delay := 3000; callback := Reconnect |}].
Proof.
  repeat split; try reflexivity; cbn; unfold with_socket;
    by destruct (ros v).
Qed.




End VizFacts.

(** ** Raw image decoding *)

Section DecodeFacts.

Import Host CameraVisualization.

Lemma updateFPS_canvas now v : canvas (updateFPS now v) = canvas v.
Proof. unfold updateFPS. by case_match. Qed.

Lemma handleRawImage_decode_raw now message v :
  (fst (handleRawImage now message v),
   canvas (snd (handleRawImage now message v))) =
  decode_raw message (canvas v).
Proof.
  unfold handleRawImage, decode_raw.
  repeat case_match; cbn; by rewrite ?updateFPS_canvas.
Qed.

Lemma for_loop_S {S : Type} fuel i step len (body : nat -> S -> S) s :
  for_loop (Datatypes.S fuel) i step len body s =
  if (i <? len)%nat then for_loop fuel (i + step) step len body (body i s)
  else s.
Proof. reflexivity. Qed.

(** A loop keeps what each round keeps. *)
Lemma for_loop_preserves {S : Type} (P : S -> Prop) (body : nat -> S -> S)
    step len :
  (forall i s, P s -> P (body i s)) ->
  forall fuel i s, P s -> P (for_loop fuel i step len body s).
Proof.
  intros Hbody. induction fuel as [|fuel IH]; intros i s Hs; [done|].
  rewrite for_loop_S. case_match; [|done]. apply IH, Hbody, Hs.
Qed.

(** Two loops whose bodies agree at every index the counter takes agree. *)
Lemma for_loop_ext {S : Type} (body1 body2 : nat -> S -> S) step len :
  forall fuel i s,
    (forall k s', (i + k * step < len)%nat ->
                  body1 (i + k * step)%nat s' = body2 (i + k * step)%nat s') ->
    for_loop fuel i step len body1 s = for_loop fuel i step len body2 s.
Proof.
  induction fuel as [|fuel IH]; intros i s Hagree; [done|].
  rewrite !for_loop_S.
  destruct (Nat.ltb_spec i len) as [Hlt|]; [|done].
  specialize (Hagree 0%nat) as H0. cbn in H0. rewrite Nat.add_0_r in H0.
  rewrite H0 by done. apply IH. intros k s' Hk.
  replace (i + step + k * step)%nat with (i + Datatypes.S k * step)%nat in * by lia.
  by apply Hagree.
Qed.

(** The fuel given by [convert] is enough: more fuel changes nothing. *)
Lemma for_loop_fuel {S : Type} (body : nat -> S -> S) step len :
  (0 < step)%nat ->
  forall fuel i s, (len - i <= fuel)%nat ->
    for_loop (Datatypes.S fuel) i step len body s =
    for_loop fuel i step len body s.
Proof.
  intros Hstep. induction fuel as [|fuel IH]; intros i s Hfuel.
  - rewrite for_loop_S. destruct (Nat.ltb_spec i len); [lia|done].
  - rewrite (for_loop_S (Datatypes.S fuel) i), (for_loop_S fuel i).
    destruct (Nat.ltb_spec i len); [|done]. apply IH. lia.
Qed.

Lemma for_loop_enough {S : Type} (body : nat -> S -> S) step len extra s :
  (0 < step)%nat ->
  for_loop (len + extra) 0 step len body s = for_loop len 0 step len body s.
Proof.
  intros Hstep. induction extra as [|extra IH].
  - by rewrite Nat.add_0_r.
  - rewrite Nat.add_succ_r, for_loop_fuel by lia. exact IH.
Qed.

Lemma rgb8_bytes_length ps : length (rgb8_bytes ps) = (3 * length ps)%nat.
Proof. induction ps as [|[[r g] b] ps IH]; cbn; [done|]. rewrite IH. lia. Qed.

Lemma bgr8_bytes_length ps : length (bgr8_bytes ps) = (3 * length ps)%nat.
Proof. induction ps as [|[[r g] b] ps IH]; cbn; [done|]. rewrite IH. lia. Qed.

Lemma rgb8_bytes_fmap (f : Z -> Z) ps :
  f <$> rgb8_bytes ps = rgb8_bytes ((fun '(r, g, b) => (f r, f g, f b)) <$> ps).
Proof. induction ps as [|[[r g] b] ps IH]; cbn; [done|]. by rewrite IH. Qed.

Lemma bgr8_bytes_fmap (f : Z -> Z) ps :
  f <$> bgr8_bytes ps = bgr8_bytes ((fun '(r, g, b) => (f r, f g, f b)) <$> ps).
Proof. induction ps as [|[[r g] b] ps IH]; cbn; [done|]. by rewrite IH. Qed.

(** Pixel [k] sits at bytes [3k], [3k+1], [3k+2], in either order. *)
Lemma rd_pixel ps : forall k, (k < length ps)%nat ->
  rd (rgb8_bytes ps) (k * 3) = rd (bgr8_bytes ps) (k * 3 + 2)
  /\ rd (rgb8_bytes ps) (k * 3 + 1) = rd (bgr8_bytes ps) (k * 3 + 1)
  /\ rd (rgb8_bytes ps) (k * 3 + 2) = rd (bgr8_bytes ps) (k * 3).
Proof.
  induction ps as [|[[r g] b] ps IH]; intros k Hk; cbn in Hk; [lia|].
  destruct k as [|k]; [done|].
  replace (S k * 3)%nat with (S (S (S (k * 3)))) by lia.
  apply (IH k). lia.
Qed.

Lemma rgb8_bgr8_loop ps d :
  for_loop (length (bgr8_bytes ps)) 0 3 (length (bgr8_bytes ps))
    (bgr8_body (bgr8_bytes ps)) d =
  for_loop (length (rgb8_bytes ps)) 0 3 (length (rgb8_bytes ps))
    (rgb8_body (rgb8_bytes ps)) d.
Proof.
  rewrite bgr8_bytes_length, rgb8_bytes_length.
  apply for_loop_ext. intros k s' Hk. cbn [Nat.add] in *.
  destruct (rd_pixel ps k) as (H0 & H1 & H2); [lia|].
  unfold bgr8_body, rgb8_body. by rewrite H0, H1, H2.
Qed.

(** C5. For every list of pixel colours, every canvas and every declared
    size, the decoder ends the same way and leaves the same canvas for the
    [bgr8] message carrying the colours in blue-green-red order as for the
    [rgb8] message carrying them in red-green-blue order. *)
Theorem bgr8_rgb8_same_output (now : Z) (w h : nat) (ps : list (Z * Z * Z))
    (v : t) :
  let bgr := {| width := w; height := h; encoding := "bgr8";
                data := Binary (bgr8_bytes ps) |} in
  let rgb := {| width := w; height := h; encoding := "rgb8";
                data := Binary (rgb8_bytes ps) |} in
  fst (handleRawImage now bgr v) = fst (handleRawImage now rgb v)
  /\ canvas (snd (handleRawImage now bgr v)) =
     canvas (snd (handleRawImage now rgb v)).
Proof.
  cbv zeta.
  enough (decode_raw {| width := w; height := h; encoding := "bgr8";
                        data := Binary (bgr8_bytes ps) |} (canvas v) =
          decode_raw {| width := w; height := h; encoding := "rgb8";
                        data := Binary (rgb8_bytes ps) |} (canvas v)) as H.
  { rewrite <- !(handleRawImage_decode_raw now _ v) in H. by inversion H. }
  unfold decode_raw. cbn [data width height encoding no_data to_byteArray].
  rewrite bgr8_bytes_length, rgb8_bytes_length.
  case_match; [done|].
  destruct (createImageData w h) as [d|]; [|done].
  rewrite bgr8_bytes_fmap, rgb8_bytes_fmap.
  unfold convert. cbn [String.eqb Ascii.eqb Bool.eqb andb orb].
  by rewrite rgb8_bgr8_loop.
Qed.

Lemma resize_size w h c :
  canvas_width (resize w h c) = w /\ canvas_height (resize w h c) = h.
Proof.
  unfold resize. repeat case_bool_decide; cbn; [done..|].
  split; apply dec_stable; congruence.
Qed.





End DecodeFacts.

(** ** The compressed-to-raw probe *)

Section ProbeFacts.

Import Host CameraVisualization.

Lemma updateFPS_frame now v :
  subscriptions (updateFPS now v) = subscriptions v
  /\ timers (updateFPS now v) = timers v
  /\ handled (updateFPS now v) = handled v
  /\ fallback_runs (updateFPS now v) = fallback_runs v.
Proof.
  unfold updateFPS, fallback_runs. case_match; cbn; [|done].
  repeat split. rewrite filter_app, length_app. cbn.
  case_decide; [discriminate|]. cbn. lia.
Qed.

Lemma handleRawImage_frame now message v :
  let v' := snd (handleRawImage now message v) in
  subscriptions v' = subscriptions v
  /\ timers v' = timers v
  /\ handled v' = handled v ++ [HandledRaw message]
  /\ fallback_runs v' = fallback_runs v.
Proof.
  cbv zeta. unfold handleRawImage.
  destruct (updateFPS_frame now
              (set_handled (handled v ++ [HandledRaw message]) v))
    as (Hs & Ht & Hh & Hf).
  repeat case_match; cbn; by rewrite ?Hs, ?Ht, ?Hh.
Qed.

Lemma committed_raw_step topic e v :
  committed_raw topic v -> committed_raw topic (step e v).
Proof.
  intros (Hs & Ht & Hc & Hf). destruct e as [id | now nm message]; cbn.
  - by rewrite Ht.
  - unfold deliver. rewrite Hs. cbn.
    case_match; [|done]. destruct message as [m | m]; cbn; [done|].
    unfold raw_callback.
    destruct (handleRawImage_frame now m v) as (Hs' & Ht' & Hh' & Hf').
    unfold committed_raw, compressed_calls.
    rewrite Hs', Ht', Hh', Hf', filter_app, length_app. cbn.
    fold (compressed_calls v). by rewrite Hc.
Qed.

Lemma committed_raw_run topic es : forall v,
  committed_raw topic v -> committed_raw topic (run es v).
Proof.
  induction es as [|e es IH]; intros v Hv; [done|].
  apply IH, committed_raw_step, Hv.
Qed.

(** Before the timer fires, a quiet event leaves the probing object as
    [subscribeToCamera] made it. *)
Lemma quiet_step topic cv now0 e :
  quiet topic e = true ->
  step e (subscribeToCamera (session topic cv now0)) =
  subscribeToCamera (session topic cv now0).
Proof.
  destruct e as [id | now nm message]; cbn; intros He.
  - case_decide; [|done]. subst. done.
  - unfold deliver. cbn. apply negb_true_iff in He. by rewrite He.
Qed.

Lemma quiet_run topic cv now0 es :
  forallb (quiet topic) es = true ->
  run es (subscribeToCamera (session topic cv now0)) =
  subscribeToCamera (session topic cv now0).
Proof.
  induction es as [|e es IH]; [done|]. cbn [forallb].
  intros [He Hes]%andb_true_iff. unfold run. cbn [foldl].
  rewrite quiet_step by done. by apply IH.
Qed.

(** C6. Subscribe to the camera; let the probe timer (handle 1, 3000 ms)
    fire after events that delivered no compressed message. Then the raw
    subscription is the only one; and whatever messages arrive and
    whatever timer handles fire afterwards, it stays the only one, no
    compressed message reaches the image handler, no timer is pending and
    the fallback has run exactly once. *)
Theorem probe_fallback_runs_once (topic : string) (cv : Canvas) (now0 : Z)
    (before after : list Event) :
  forallb (quiet topic) before = true ->
  let probing := run before (subscribeToCamera (session topic cv now0)) in
  let fallen := step (TimerFires 1) probing in
  let later := run after fallen in
  timers probing = [{| timer_id := 1; delay := 3000;
                       callback := ProbeTimeout 0 |}]
  /\ subscriptions fallen = [raw_subscription topic]
  /\ subscriptions later = [raw_subscription topic]
  /\ compressed_calls later = 0%nat
  /\ timers later = []
  /\ fallback_runs later = 1%nat.
Proof.
  intros Hquiet. cbv zeta. rewrite quiet_run by done.
  assert (Hfallen : committed_raw topic
            (step (TimerFires 1) (subscribeToCamera (session topic cv now0)))).
  { by repeat split. }
  destruct (committed_raw_run topic after _ Hfallen) as (Hs & Ht & Hc & Hf).
  destruct Hfallen as (Hs0 & _).
  by repeat split.
Qed.

Lemma probe_fallback_runs_once_witness :
  let topic := "/camera/color/image_raw" in
  let cv := {| canvas_width := 1; canvas_height := 1;
               pixels := [0; 0; 0; 0]%Z |} in
  let jpeg := Compressed {| format := "jpeg";
                            compressed_data := Text "/9j/4AAQ" |} in
  let raw := Raw {| width := 1; height := 1; encoding := "mono8";
                    data := Binary [7]%Z |} in
  let before := [MessageArrives 100 topic raw; TimerFires 0] in
  let after := [MessageArrives 3500 (topic +:+ "/compressed") jpeg;
                MessageArrives 3600 topic raw;
                TimerFires 1;
                MessageArrives 4700 topic jpeg] in
  let fallen :=
    step (TimerFires 1) (run before (subscribeToCamera (session topic cv 0))) in
  forallb (quiet topic) before = true
  /\ (timers (run before (subscribeToCamera (session topic cv 0))) =
        [{| timer_id := 1; delay := 3000; callback := ProbeTimeout 0 |}]
      /\ subscriptions fallen = [raw_subscription topic]
      /\ subscriptions (run after fallen) = [raw_subscription topic]
      /\ compressed_calls (run after fallen) = 0%nat
      /\ timers (run after fallen) = []
      /\ fallback_runs (run after fallen) = 1%nat).
Proof.
  cbv zeta. split; [reflexivity|].
  apply (probe_fallback_runs_once "/camera/color/image_raw"). reflexivity.
Defined.

End ProbeFacts.

(** ** The conversion loops, byte for byte *)

Section PixelFacts.

Import Host CameraVisualization Pixels.

Lemma lookup_overlay off src d j :
  overlay off src d !! j =
  (fun x => if decide (off <= j)%nat
            then default x (src !! (j - off)%nat) else x) <$> d !! j.
Proof. unfold overlay. by rewrite list_lookup_imap. Qed.

Lemma length_overlay off src d : length (overlay off src d) = length d.
Proof. unfold overlay. by rewrite length_imap. Qed.

Lemma overlay_nil off d : overlay off [] d = d.
Proof.
  apply list_eq. intros j. rewrite lookup_overlay.
  destruct (d !! j); cbn; [|done]. by case_decide.
Qed.

(** An indexed store is an overlay of one byte. *)
Lemma insert_overlay i (a : Z) d : <[i:=a]> d = overlay i [a] d.
Proof.
  apply list_eq. intros j. rewrite lookup_overlay.
  destruct (decide (i = j)) as [->|Hne].
  - destruct (d !! j) eqn:Hj.
    + rewrite list_lookup_insert_eq by (by eapply lookup_lt_Some).
      cbn. case_decide; [|lia]. by rewrite Nat.sub_diag.
    + cbn. apply lookup_ge_None. rewrite length_insert.
      by apply lookup_ge_None.
  - rewrite list_lookup_insert_ne by done.
    destruct (d !! j); cbn; [|done]. case_decide; [|done].
    destruct (j - i)%nat as [|n] eqn:E; [lia|]. done.
Qed.

(** Overlays of adjacent blocks merge. *)
Lemma overlay_app off s1 s2 d :
  overlay (off + length s1) s2 (overlay off s1 d) = overlay off (s1 ++ s2) d.
Proof.
  apply list_eq. intros j. rewrite !lookup_overlay.
  destruct (d !! j) as [x|]; cbn; [|done]. f_equal.
  destruct (decide (off + length s1 <= j)%nat) as [H1|H1].
  - rewrite !decide_True by lia.
    rewrite lookup_app_r by lia.
    rewrite (proj2 (lookup_ge_None s1 (j - off)%nat)) by lia. cbn.
    by replace (j - off - length s1)%nat with (j - (off + length s1))%nat
      by lia.
  - destruct (decide (off <= j)%nat) as [H2|H2]; [|done].
    by rewrite lookup_app_l by lia.
Qed.

Lemma overlay_blank N src :
  overlay 0 src (replicate N 0%Z) = fit N src.
Proof.
  unfold fit. apply list_eq. intros j. rewrite lookup_overlay, Nat.sub_0_r.
  destruct (decide (j < N)%nat) as [Hj|Hj].
  - rewrite lookup_replicate_2 by done. cbn.
    destruct (decide (j < length src)%nat).
    + rewrite lookup_resize by done. rewrite decide_True by lia.
      destruct (lookup_lt_is_Some_2 src j) as [x ->]; done.
    + rewrite lookup_resize_new by lia. rewrite decide_True by lia.
      by rewrite (proj2 (lookup_ge_None src j)) by lia.
  - rewrite lookup_resize_old by lia.
    by rewrite (lookup_ge_None_2 (replicate N 0%Z) j)
      by (rewrite length_replicate; lia).
Qed.

Lemma write4_overlay idx (a b c e : Z) d :
  <[idx + 3 := e]> (<[idx + 2 := c]> (<[idx + 1 := b]> (<[idx := a]> d))) =
  overlay idx [a; b; c; e] d.
Proof.
  rewrite !insert_overlay.
  rewrite (overlay_app idx [a] [b]).
  rewrite (overlay_app idx [a; b] [c]).
  by rewrite (overlay_app idx [a; b; c] [e]).
Qed.

(** A loop that reads [s] bytes and writes a block of [o] bytes each round
    writes the blocks one after the other. *)
Lemma for_loop_overlay (expected : list Z -> list Z)
    (body : nat -> list Z -> list Z) (s o : nat) (bytes : list Z) :
  (0 < s)%nat ->
  expected [] = [] ->
  (forall k d, (k * s < length bytes)%nat ->
     exists blk, length blk = o
       /\ body (k * s)%nat d = overlay (k * o) blk d
       /\ expected (drop (k * s) bytes) =
          blk ++ expected (drop (S k * s) bytes)) ->
  forall fuel k d, (length bytes - k * s <= fuel)%nat ->
    for_loop fuel (k * s) s (length bytes) body d =
    overlay (k * o) (expected (drop (k * s) bytes)) d.
Proof.
  intros Hs Hnil Hbody. induction fuel as [|fuel IH]; intros k d Hfuel.
  - cbn. rewrite drop_ge by lia. by rewrite Hnil, overlay_nil.
  - cbn [for_loop]. destruct (Nat.ltb_spec (k * s) (length bytes)) as [Hlt|Hge].
    + destruct (Hbody k d Hlt) as (blk & Hlen & -> & ->).
      replace (k * s + s)%nat with (S k * s)%nat by lia.
      rewrite IH by lia. subst o.
      replace (S k * length blk)%nat with (k * length blk + length blk)%nat
        by lia.
      by rewrite overlay_app.
    + rewrite drop_ge by lia. by rewrite Hnil, overlay_nil.
Qed.

Lemma rd_drop bytes i j : rd bytes (i + j) = default 0%Z (drop i bytes !! j).
Proof. unfold rd. by rewrite lookup_drop. Qed.

Lemma rd_drop_0 bytes i : rd bytes i = default 0%Z (drop i bytes !! 0%nat).
Proof. by rewrite <- rd_drop, Nat.add_0_r. Qed.

Lemma drop_nonempty (bytes : list Z) i :
  (i < length bytes)%nat -> exists a rest, drop i bytes = a :: rest.
Proof.
  intros Hi. destruct (drop i bytes) as [|a rest] eqn:E; [|by eauto].
  apply (f_equal length) in E. rewrite length_drop in E. cbn in E. lia.
Qed.

(** The shape of one round: the block it writes, and the rest of the
    payload it leaves to the later rounds. *)
Ltac round_of bytes k s :=
  let a := fresh "a" in let rest := fresh "rest" in let E := fresh "E" in
  intros k ? Hk;
  destruct (drop_nonempty bytes (k * s)%nat Hk) as (a & rest & E);
  replace (S k * s)%nat with (k * s + s)%nat by lia;
  rewrite <- drop_drop, ?rd_drop, ?rd_drop_0, E.

Lemma rgb8_loop bytes d :
  for_loop (length bytes) 0 3 (length bytes) (rgb8_body bytes) d =
  overlay 0 (rgba_of_rgb8 bytes) d.
Proof.
  apply (for_loop_overlay rgba_of_rgb8 (rgb8_body bytes) 3 4 bytes
           ltac:(lia) eq_refl) with (k := 0%nat); [|lia].
  unfold rgb8_body. round_of bytes k 3%nat.
  rewrite Nat.div_mul, write4_overlay by done.
  eexists. split; [|split; [reflexivity|]]; [done|].
  by destruct rest as [|b [|c rest]].
Qed.

Lemma bgr8_loop bytes d :
  for_loop (length bytes) 0 3 (length bytes) (bgr8_body bytes) d =
  overlay 0 (rgba_of_bgr8 bytes) d.
Proof.
  apply (for_loop_overlay rgba_of_bgr8 (bgr8_body bytes) 3 4 bytes
           ltac:(lia) eq_refl) with (k := 0%nat); [|lia].
  unfold bgr8_body. round_of bytes k 3%nat.
  rewrite Nat.div_mul, write4_overlay by done.
  eexists. split; [|split; [reflexivity|]]; [done|].
  by destruct rest as [|b [|c rest]].
Qed.

Lemma bgra8_loop bytes d :
  for_loop (length bytes) 0 4 (length bytes) (bgra8_body bytes) d =
  overlay 0 (rgba_of_bgra8 bytes) d.
Proof.
  apply (for_loop_overlay rgba_of_bgra8 (bgra8_body bytes) 4 4 bytes
           ltac:(lia) eq_refl) with (k := 0%nat); [|lia].
  unfold bgra8_body. round_of bytes k 4%nat.
  rewrite write4_overlay.
  eexists. split; [|split; [reflexivity|]]; [done|].
  by destruct rest as [|b [|c [|e rest]]].
Qed.

Lemma mono8_loop bytes d :
  for_loop (length bytes) 0 1 (length bytes) (mono8_body bytes) d =
  overlay 0 (rgba_of_mono8 bytes) d.
Proof.
  apply (for_loop_overlay rgba_of_mono8 (mono8_body bytes) 1 4 bytes
           ltac:(lia) eq_refl) with (k := 0%nat); [|lia].
  unfold mono8_body. round_of bytes k 1%nat.
  rewrite Nat.mul_1_r, write4_overlay.
  eexists. split; [|split; [reflexivity|]]; done.
Qed.

Lemma rgba8_loop bytes d :
  for_loop (length bytes) 0 1 (length bytes) (rgba8_body bytes) d =
  overlay 0 bytes d.
Proof.
  apply (for_loop_overlay (fun l => l) (rgba8_body bytes) 1 1 bytes
           ltac:(lia) eq_refl) with (k := 0%nat); [|lia].
  unfold rgba8_body. round_of bytes k 1%nat.
  rewrite Nat.mul_1_r, insert_overlay.
  eexists. split; [|split; [reflexivity|]]; done.
Qed.

(** The buffer a conversion leaves, started on a blank buffer of [N]
    bytes, is the RGBA form of the payload cut or zero-filled to [N]. *)
Lemma convert_rgba_of encoding bytes N :
  convert encoding bytes (replicate N 0%Z) = fit N <$> rgba_of encoding bytes.
Proof.
  unfold convert, rgba_of.
  destruct (String.eqb encoding "rgb8");
    [by rewrite rgb8_loop, overlay_blank|].
  destruct (String.eqb encoding "bgr8");
    [by rewrite bgr8_loop, overlay_blank|].
  destruct (String.eqb encoding "rgba8");
    [by rewrite rgba8_loop, overlay_blank|].
  destruct (String.eqb encoding "bgra8");
    [by rewrite bgra8_loop, overlay_blank|].
  destruct (String.eqb encoding "mono8");
    [by cbn; rewrite mono8_loop, overlay_blank|].
  destruct (String.eqb encoding "grayscale");
    [by cbn; rewrite mono8_loop, overlay_blank|].
  done.
Qed.

(** A message that passes the guards and converts is rendered at its
    declared size. *)
Lemma handleRawImage_rendered now message v bytes px :
  no_data (data message) = false ->
  to_byteArray (data message) = Some bytes ->
  width message <> 0%nat -> height message <> 0%nat ->
  convert (encoding message) bytes
    (replicate (width message * height message * 4) 0%Z) = Some px ->
  fst (handleRawImage now message v) = Rendered
  /\ canvas (snd (handleRawImage now message v)) =
     {| canvas_width := width message; canvas_height := height message;
        pixels := px |}.
Proof.
  intros Hdata Hbytes Hw Hh Hpx.
  pose proof (handleRawImage_decode_raw now message v) as H.
  unfold decode_raw in H. rewrite Hdata, Hbytes in H.
  unfold createImageData in H.
  destruct (Nat.eqb_spec (width message) 0); [done|].
  destruct (Nat.eqb_spec (height message) 0); [done|].
  cbn [orb] in H. rewrite Hpx in H. injection H as Ho Hc.
  split; [done|]. rewrite Hc. unfold putImageData.
  by destruct (resize_size (width message) (height message) (canvas v))
    as [-> ->].
Qed.

Lemma handleRawImage_canvas (now : Z) (message : Image) (v : t)
    (bytes px : list Z) :
  no_data (data message) = false ->
  to_byteArray (data message) = Some bytes ->
  width message <> 0%nat -> height message <> 0%nat ->
  rgba_of (encoding message) bytes = Some px ->
  canvas (snd (handleRawImage now message v)) =
  {| canvas_width := width message; canvas_height := height message;
     pixels := fit (width message * height message * 4) px |}.
Proof.
  intros Hdata Hbytes Hw Hh Hpx.
  apply (handleRawImage_rendered now message v bytes); try done.
  by rewrite convert_rgba_of, Hpx.
Qed.



Lemma rgba_of_rgb8_bytes ps : rgba_of_rgb8 (rgb8_bytes ps) = rgba_pixels ps.
Proof.
  induction ps as [|[[r g] b] ps IH]; [done|].
  cbn [rgb8_bytes rgba_of_rgb8]. by rewrite IH.
Qed.

Lemma rgba_of_bgr8_bytes ps : rgba_of_bgr8 (bgr8_bytes ps) = rgba_pixels ps.
Proof.
  induction ps as [|[[r g] b] ps IH]; [done|].
  cbn [bgr8_bytes rgba_of_bgr8]. by rewrite IH.
Qed.

Lemma rgba_of_mono8_gray gs : rgba_of_mono8 gs = gray_pixels gs.
Proof. induction gs as [|g gs IH]; [done|]. cbn. by rewrite IH. Qed.

Lemma length_rgba_pixels ps : length (rgba_pixels ps) = (length ps * 4)%nat.
Proof.
  induction ps as [|[[r g] b] ps IH]; [done|].
  unfold rgba_pixels in *. cbn. rewrite IH. lia.
Qed.

Lemma length_gray_pixels gs : length (gray_pixels gs) = (length gs * 4)%nat.
Proof.
  induction gs as [|g gs IH]; [done|].
  unfold gray_pixels in *. cbn. rewrite IH. lia.
Qed.

Lemma fit_exact N l : length l = N -> fit N l = l.
Proof. intros. unfold fit. by apply resize_all_alt. Qed.

(** An array of byte values is its own [Uint8Array]. *)
Lemma to_byteArray_bytes l :
  Forall is_byte l -> to_byteArray (Binary l) = Some l.
Proof.
  intros Hl. cbn. f_equal. induction Hl as [|x l Hx _ IH]; [done|].
  cbn. rewrite IH. f_equal. by apply Z.mod_small.
Qed.

Lemma rgb8_bytes_are_bytes ps :
  Forall is_colour ps ->
  Forall is_byte (rgb8_bytes ps) /\ Forall is_byte (bgr8_bytes ps).
Proof.
  induction 1 as [|[[r g] b] ps (Hr & Hg & Hb) _ [IH1 IH2]]; [done|].
  split; cbn; by repeat (apply Forall_cons; split; [done|]).
Qed.

Lemma no_data_Binary (l : list Z) :
  (0 < length l)%nat -> no_data (Binary l) = false.
Proof. intros Hl. destruct l; [cbn in Hl; lia | done]. Qed.

(** X2. A well-formed colour frame: [width * height] colours with byte
    channels, sent as [rgb8] or with the channels reversed as [bgr8], is
    shown as exactly those colours, each with alpha 255. *)
Theorem handleRawImage_colour_frame (now : Z) (w h : nat)
    (ps : list (Z * Z * Z)) (v : t) :
  Forall is_colour ps ->
  length ps = (w * h)%nat -> w <> 0%nat -> h <> 0%nat ->
  let shown := {| canvas_width := w; canvas_height := h;
                  pixels := rgba_pixels ps |} in
  canvas (snd (handleRawImage now
                 {| width := w; height := h; encoding := "rgb8";
                    data := Binary (rgb8_bytes ps) |} v)) = shown
  /\ canvas (snd (handleRawImage now
                    {| width := w; height := h; encoding := "bgr8";
                       data := Binary (bgr8_bytes ps) |} v)) = shown.
Proof.
  intros Hps Hlen Hw Hh. cbv zeta.
  destruct (rgb8_bytes_are_bytes ps Hps) as [Hrgb Hbgr].
  assert (Hfit : fit (w * h * 4) (rgba_pixels ps) = rgba_pixels ps).
  { apply fit_exact. rewrite length_rgba_pixels. lia. }
  assert (0 < length ps)%nat by nia.
  split.
  - etransitivity; [apply (handleRawImage_canvas now
                {| width := w; height := h; encoding := "rgb8";
                   data := Binary (rgb8_bytes ps) |} v
                (rgb8_bytes ps) (rgba_pixels ps))|];
      cbn [data width height encoding]; try done.
    + apply no_data_Binary. rewrite rgb8_bytes_length. lia.
    + by apply to_byteArray_bytes.
    + unfold rgba_of. cbn. by rewrite rgba_of_rgb8_bytes.
    + by rewrite Hfit.
  - etransitivity; [apply (handleRawImage_canvas now
                {| width := w; height := h; encoding := "bgr8";
                   data := Binary (bgr8_bytes ps) |} v
                (bgr8_bytes ps) (rgba_pixels ps))|];
      cbn [data width height encoding]; try done.
    + apply no_data_Binary. rewrite bgr8_bytes_length. lia.
    + by apply to_byteArray_bytes.
    + unfold rgba_of. cbn. by rewrite rgba_of_bgr8_bytes.
    + by rewrite Hfit.
Qed.

Lemma handleRawImage_colour_frame_witness :
  let v := session "/camera/color/image_raw"
             {| canvas_width := 1; canvas_height := 1;
                pixels := [9; 9; 9; 255]%Z |} 0 in
  let ps := [(255, 128, 0); (1, 2, 3)]%Z in
  (Forall is_colour ps /\ length ps = (2 * 1)%nat)
  /\ rgb8_bytes ps = [255; 128; 0; 1; 2; 3]%Z
  /\ bgr8_bytes ps = [0; 128; 255; 3; 2; 1]%Z
  /\ canvas (snd (handleRawImage 40
                    {| width := 2; height := 1; encoding := "rgb8";
                       data := Binary (rgb8_bytes ps) |} v)) =
       {| canvas_width := 2; canvas_height := 1;
          pixels := [255; 128; 0; 255; 1; 2; 3; 255]%Z |}
  /\ canvas (snd (handleRawImage 40
                    {| width := 2; height := 1; encoding := "bgr8";
                       data := Binary (bgr8_bytes ps) |} v)) =
       {| canvas_width := 2; canvas_height := 1;
          pixels := [255; 128; 0; 255; 1; 2; 3; 255]%Z |}.
Proof.
  cbv zeta.
  assert (Hps : Forall is_colour [(255, 128, 0); (1, 2, 3)]%Z).
  { repeat (apply Forall_cons; split; [unfold is_colour, is_byte; lia|]).
    apply Forall_nil_2. }
  split; [split; [exact Hps | reflexivity]|].
  split; [reflexivity|]. split; [reflexivity|].
  apply (handleRawImage_colour_frame 40 2 1 [(255, 128, 0); (1, 2, 3)]%Z);
    [exact Hps | reflexivity | discriminate | discriminate].
Defined.



(** X4. A well-formed gray frame, [width * height] byte values tagged
    [mono8] or [grayscale], is shown with each value copied to the red,
    green and blue channels and alpha 255. *)
Theorem handleRawImage_gray_frame (now : Z) (w h : nat) (gs : list Z) (v : t) :
  Forall is_byte gs ->
  length gs = (w * h)%nat -> w <> 0%nat -> h <> 0%nat ->
  let shown := {| canvas_width := w; canvas_height := h;
                  pixels := gray_pixels gs |} in
  canvas (snd (handleRawImage now
                 {| width := w; height := h; encoding := "mono8";
                    data := Binary gs |} v)) = shown
  /\ canvas (snd (handleRawImage now
                    {| width := w; height := h; encoding := "grayscale";
                       data := Binary gs |} v)) = shown.
Proof.
  intros Hgs Hlen Hw Hh. cbv zeta.
  assert (Hfit : fit (w * h * 4) (gray_pixels gs) = gray_pixels gs).
  { apply fit_exact. rewrite length_gray_pixels. lia. }
  split.
  - etransitivity; [apply (handleRawImage_canvas now
                {| width := w; height := h; encoding := "mono8";
                   data := Binary gs |} v gs (gray_pixels gs))|];
      cbn [data width height encoding]; try done;
      first [ apply no_data_Binary; nia
            | by apply to_byteArray_bytes
            | by rewrite Hfit
            | unfold rgba_of; cbn; by rewrite rgba_of_mono8_gray ].
  - etransitivity; [apply (handleRawImage_canvas now
                {| width := w; height := h; encoding := "grayscale";
                   data := Binary gs |} v gs (gray_pixels gs))|];
      cbn [data width height encoding]; try done;
      first [ apply no_data_Binary; nia
            | by apply to_byteArray_bytes
            | by rewrite Hfit
            | unfold rgba_of; cbn; by rewrite rgba_of_mono8_gray ].
Qed.

Lemma handleRawImage_gray_frame_witness :
  let v := session "/camera/color/image_raw"
             {| canvas_width := 1; canvas_height := 1;
                pixels := [9; 9; 9; 255]%Z |} 0 in
  let gs := [0; 200]%Z in
  (Forall is_byte gs /\ length gs = (2 * 1)%nat)
  /\ canvas (snd (handleRawImage 40
                    {| width := 2; height := 1; encoding := "mono8";
                       data := Binary gs |} v)) =
       {| canvas_width := 2; canvas_height := 1;
          pixels := [0; 0; 0; 255; 200; 200; 200; 255]%Z |}
  /\ canvas (snd (handleRawImage 40
                    {| width := 2; height := 1; encoding := "grayscale";
                       data := Binary gs |} v)) =
       {| canvas_width := 2; canvas_height := 1;
          pixels := [0; 0; 0; 255; 200; 200; 200; 255]%Z |}.
Proof.
  cbv zeta.
  assert (Hb : Forall is_byte [0; 200]%Z).
  { repeat (apply Forall_cons; split; [unfold is_byte; lia|]).
    apply Forall_nil_2. }
  split; [split; [exact Hb | reflexivity]|].
  apply (handleRawImage_gray_frame 40 2 1 [0; 200]%Z);
    [exact Hb | reflexivity | discriminate | discriminate].
Defined.

(** *** Channel values stay bytes *)

Lemma sextet_range c x : sextet c = Some x -> (0 <= x < 64)%Z.
Proof.
  unfold sextet. intros H.
  repeat (case_match; [injection H as <-; lia|]).
  discriminate.
Qed.

Lemma decode_sextets_bytes n : forall l,
  (length l <= n)%nat -> Forall (fun x => 0 <= x < 64)%Z l ->
  Forall is_byte (decode_sextets l).
Proof.
  unfold is_byte.
  induction n as [n IH] using lt_wf_ind. intros l Hn Hl.
  destruct l as [|a [|b [|c [|e rest]]]]; cbn [decode_sextets];
    repeat match goal with
           | H : Forall _ (_ :: _) |- _ => apply Forall_cons in H as [? H]
           end;
    try done.
  - constructor; [|done].
    pose proof (Z.div_pos b 16). pose proof (Z.div_lt_upper_bound b 16 4). lia.
  - pose proof (Z.div_pos b 16). pose proof (Z.div_lt_upper_bound b 16 4).
    pose proof (Z.div_pos c 4). pose proof (Z.div_lt_upper_bound c 4 16).
    pose proof (Z.mod_pos_bound b 16).
    repeat (constructor; [lia|]). done.
  - pose proof (Z.div_pos b 16). pose proof (Z.div_lt_upper_bound b 16 4).
    pose proof (Z.div_pos c 4). pose proof (Z.div_lt_upper_bound c 4 16).
    pose proof (Z.mod_pos_bound b 16). pose proof (Z.mod_pos_bound c 4).
    repeat (constructor; [lia|]).
    apply (IH (length rest)); [cbn in Hn; lia | done | done].
Qed.

Lemma atob_bytes s l : atob s = Some l -> Forall is_byte l.
Proof.
  unfold atob. case_match; [done|].
  intros (sextets & Hsextets%mapM_Some & ->)%fmap_Some.
  apply (decode_sextets_bytes (length sextets)); [done|].
  match goal with H : (_ =? _)%nat = false |- _ => clear H end.
  induction Hsextets; constructor; eauto using sextet_range.
Qed.

Lemma to_byteArray_are_bytes d bytes :
  to_byteArray d = Some bytes -> Forall is_byte bytes.
Proof.
  destruct d as [|s|l]; cbn.
  - by intros [= <-].
  - apply atob_bytes.
  - intros [= <-]. apply Forall_fmap, Forall_true. intros x.
    apply Z.mod_pos_bound. lia.
Qed.

Lemma rd_byte bytes i : Forall is_byte bytes -> is_byte (rd bytes i).
Proof.
  intros Hbytes. unfold rd. destruct (bytes !! i) as [x|] eqn:E; cbn.
  - by eapply Forall_lookup_1.
  - unfold is_byte. lia.
Qed.

Lemma convert_bytes encoding bytes d px :
  Forall is_byte bytes -> Forall is_byte d ->
  convert encoding bytes d = Some px -> Forall is_byte px.
Proof.
  intros Hbytes Hd. unfold convert.
  assert (H255 : is_byte 255) by (unfold is_byte; lia).
  assert (Hloop : forall body step,
    (forall i d', Forall is_byte d' -> Forall is_byte (body i d')) ->
    Forall is_byte
      (for_loop (length bytes) 0 step (length bytes) body d)).
  { intros body step Hbody. by apply for_loop_preserves. }
  repeat (case_match; [intros [= <-]; apply Hloop; intros i d' Hd';
    unfold rgb8_body, bgr8_body, rgba8_body, bgra8_body, mono8_body;
    repeat (apply Forall_insert; [|done || by apply rd_byte]); done|]).
  done.
Qed.

(** X5. Whatever message arrives, a canvas that holds byte values before
    [handleRawImage] holds byte values after it. *)
Theorem handleRawImage_keeps_bytes (now : Z) (message : Image) (v : t) :
  Forall is_byte (pixels (canvas v)) ->
  Forall is_byte (pixels (canvas (snd (handleRawImage now message v)))).
Proof.
  intros Hv.
  assert (Hblank : forall n, Forall is_byte (replicate n 0%Z)).
  { intros n. apply Forall_replicate. unfold is_byte. lia. }
  assert (Hresize : Forall is_byte
    (pixels (resize (width message) (height message) (canvas v)))).
  { unfold resize. destruct (_ || _); [apply Hblank | done]. }
  pose proof (handleRawImage_decode_raw now message v) as H.
  unfold decode_raw in H.
  destruct (no_data (data message)); [by injection H as _ ->|].
  destruct (to_byteArray (data message)) as [bytes|] eqn:Hbytes;
    [|by injection H as _ ->].
  unfold createImageData in H.
  destruct ((width message =? 0)%nat || (height message =? 0)%nat);
    [by injection H as _ ->|].
  destruct (convert (encoding message) bytes _) as [px|] eqn:Hpx;
    injection H as _ ->; [|done].
  cbn. eapply convert_bytes; [|apply Hblank|exact Hpx].
  by eapply to_byteArray_are_bytes.
Qed.

Lemma handleRawImage_keeps_bytes_witness :
  let v := session "/camera/color/image_raw"
             {| canvas_width := 1; canvas_height := 1;
                pixels := [9; 9; 9; 255]%Z |} 0 in
  let message := {| width := 1; height := 1; encoding := "bgra8";
                    data := Text "AQID" |} in
  Forall is_byte (pixels (canvas v))
  /\ pixels (canvas (snd (handleRawImage 40 message v))) = [3; 2; 1; 0]%Z
  /\ Forall is_byte (pixels (canvas (snd (handleRawImage 40 message v)))).
Proof.
  cbv zeta.
  assert (Hb : Forall is_byte [9; 9; 9; 255]%Z).
  { repeat (apply Forall_cons; split; [unfold is_byte; lia|]).
    apply Forall_nil_2. }
  split; [exact Hb|]. split; [vm_compute; reflexivity|].
  apply handleRawImage_keeps_bytes. exact Hb.
Defined.

(** X6. A payload sent as base64 text is decoded like the same bytes sent
    as an array: the handler ends the same way and leaves the same
    canvas. *)
Theorem handleRawImage_text_as_binary (now : Z) (w h : nat) (enc s : string)
    (bytes : list Z) (v : t) :
  atob s = Some bytes -> (0 < length bytes)%nat ->
  let text := {| width := w; height := h; encoding := enc; data := Text s |} in
  let binary := {| width := w; height := h; encoding := enc;
                   data := Binary bytes |} in
  fst (handleRawImage now text v) = fst (handleRawImage now binary v)
  /\ canvas (snd (handleRawImage now text v)) =
     canvas (snd (handleRawImage now binary v)).
Proof.
  intros Hs Hlen. cbv zeta.
  enough (decode_raw {| width := w; height := h; encoding := enc;
                        data := Text s |} (canvas v) =
          decode_raw {| width := w; height := h; encoding := enc;
                        data := Binary bytes |} (canvas v)) as H.
  { rewrite <- !(handleRawImage_decode_raw now _ v) in H. by injection H. }
  unfold decode_raw. cbn [data width height encoding].
  rewrite (no_data_Binary bytes Hlen).
  rewrite (to_byteArray_bytes bytes) by (by eapply atob_bytes).
  assert (no_data (Text s) = false) as ->.
  { destruct s; [|done]. cbn in Hs. injection Hs as <-. cbn in Hlen. lia. }
  cbn [to_byteArray]. by rewrite Hs.
Qed.

Lemma handleRawImage_text_as_binary_witness :
  let v := session "/camera/color/image_raw"
             {| canvas_width := 1; canvas_height := 1;
                pixels := [9; 9; 9; 255]%Z |} 0 in
  let text := {| width := 1; height := 1; encoding := "rgb8";
                 data := Text "AQID" |} in
  let binary := {| width := 1; height := 1; encoding := "rgb8";
                   data := Binary [1; 2; 3]%Z |} in
  (atob "AQID" = Some [1; 2; 3]%Z /\ (0 < length [1; 2; 3]%Z)%nat)
  /\ fst (handleRawImage 40 text v) = fst (handleRawImage 40 binary v)
  /\ canvas (snd (handleRawImage 40 text v)) =
     canvas (snd (handleRawImage 40 binary v)).
Proof.
  cbv zeta.
  split; [split; [reflexivity | cbn; lia]|].
  apply (handleRawImage_text_as_binary 40 1 1 "rgb8" "AQID" [1; 2; 3]%Z);
    [reflexivity | cbn; lia].
Defined.

Lemma convert_unsupported encoding bytes d :
  supported_encoding encoding = false -> convert encoding bytes d = None.
Proof.
  unfold supported_encoding. intros H%bool_decide_eq_false.
  rewrite !elem_of_cons in H. unfold convert.
  repeat match goal with
         | |- context [String.eqb encoding ?x] =>
             destruct (String.eqb_spec encoding x); [exfalso; tauto|]
         end.
  done.
Qed.

(** X7. A frame that is not drawn. With no payload the canvas is left as it
    was. With a payload and an encoding the decoder does not know, nothing
    is drawn either, but the canvas has already taken the declared size: it
    is left as it was when it had that size, and is blank otherwise. *)
Theorem handleRawImage_not_drawn (now : Z) (message : Image) (v : t) :
  let after := handleRawImage now message v in
  (no_data (data message) = true ->
     fst after = DroppedNoData /\ canvas (snd after) = canvas v)
  /\ (no_data (data message) = false ->
      supported_encoding (encoding message) = false ->
      (fst after = DroppedUnsupported \/ fst after = Threw)
      /\ canvas (snd after) =
         resize (width message) (height message) (canvas v)
      /\ (canvas_width (canvas v) = width message ->
          canvas_height (canvas v) = height message ->
          canvas (snd after) = canvas v)
      /\ (canvas_width (canvas v) <> width message
          \/ canvas_height (canvas v) <> height message ->
          pixels (canvas (snd after)) =
          replicate (width message * height message * 4) 0%Z)).
Proof.
  cbv zeta. pose proof (handleRawImage_decode_raw now message v) as H.
  unfold decode_raw in H. split.
  - intros Hdata. rewrite Hdata in H. by injection H.
  - intros Hdata Henc. rewrite Hdata in H.
    assert (Hc : canvas (handleRawImage now message v).2 =
                 resize (width message) (height message) (canvas v)
                 /\ ((handleRawImage now message v).1 = DroppedUnsupported
                     \/ (handleRawImage now message v).1 = Threw)).
    { destruct (to_byteArray (data message)) as [bytes|];
        [|injection H as -> ->; auto].
      destruct (createImageData _ _) as [d|]; [|injection H as -> ->; auto].
      rewrite convert_unsupported in H by done.
      injection H as -> ->; auto. }
    destruct Hc as [Hc Ho]. rewrite Hc. split; [done|]. split; [done|].
    unfold resize. split.
    + intros Hw Hh. rewrite !bool_decide_eq_false_2 by naive_solver. done.
    + intros Hne.
      destruct (bool_decide _ || bool_decide _) eqn:E; [done|].
      apply orb_false_iff in E as [E1%bool_decide_eq_false E2%bool_decide_eq_false].
      destruct Hne as [Hne|Hne]; exfalso.
      * by apply E1.
      * by apply E2.
Qed.

Lemma handleRawImage_not_drawn_witness :
  let shown := {| canvas_width := 1; canvas_height := 1;
                  pixels := [200; 100; 50; 255]%Z |} in
  let v := session "/camera/color/image_raw" shown 0 in
  let message := {| width := 2; height := 1; encoding := "yuv422";
                    data := Binary [1; 2; 3; 4]%Z |} in
  (no_data (data message) = false
   /\ supported_encoding (encoding message) = false)
  /\ fst (handleRawImage 10 message v) = DroppedUnsupported
  /\ pixels (canvas (snd (handleRawImage 10 message v))) =
     replicate 8 0%Z.
Proof.
  cbv zeta. split; [split; reflexivity|]. split; [reflexivity|].
  refine (proj2 (proj2 (proj2 (proj2 (handleRawImage_not_drawn 10
    {| width := 2; height := 1; encoding := "yuv422";
       data := Binary [1; 2; 3; 4]%Z |} _) eq_refl eq_refl))) _).
  left. discriminate.
Defined.

Lemma updateFPS_set_handled now l v :
  updateFPS now (set_handled l v) = set_handled l (updateFPS now v).
Proof. unfold updateFPS. cbn. by case_match. Qed.

(** X8. Frame counting does not look at the message: whether the frame is
    drawn, dropped or makes the host throw, the frame counter, the FPS
    figure, the time of the last FPS update and the status shown are those
    [updateFPS] alone would leave. *)
Theorem handleRawImage_counts_every_frame (now : Z) (message : Image) (v : t) :
  let after := snd (handleRawImage now message v) in
  frameCount after = frameCount (updateFPS now v)
  /\ lastFrameTime after = lastFrameTime (updateFPS now v)
  /\ fps after = fps (updateFPS now v)
  /\ connectionStatus after = connectionStatus (updateFPS now v)
  /\ statusBar after = statusBar (updateFPS now v)
  /\ signals after = signals (updateFPS now v).
Proof.
  cbv zeta. unfold handleRawImage. rewrite updateFPS_set_handled.
  repeat case_match; by cbn.
Qed.

End PixelFacts.

(** ** The probe, on the compressed side and across a disconnect *)

Section ProbeCommitFacts.

Import Host CameraVisualization CameraPage.

(** The object right after [subscribeToCamera] in a fresh session. *)
Lemma subscribeToCamera_session topic cv now0 :
  subscribeToCamera (session topic cv now0) =
  {| cameraTopic := topic;
     cameraSubscriber := Some (sub_topic (compressed_subscription topic));
     canvas := cv; connectionStatus := "connected";
     statusBar := {| color := "#00FF00";
                     textContent := "✓ Camera Connected" |};
     frameCount := 0; lastFrameTime := now0; fps := 0; created := 2;
     subscriptions := [compressed_subscription topic];
     receivedMessage := [false];
     timers := [{| timer_id := 1; delay := 3000;
                   callback := ProbeTimeout 0 |}];
     handled := []; signals := [] |}.
Proof. reflexivity. Qed.

Lemma compressed_callback_frame probe timeout now m v :
  let v' := compressed_callback probe timeout now m v in
  subscriptions v' = subscriptions v
  /\ timers v' = filter (fun tm => timer_id tm <> timeout) (timers v)
  /\ handled v' = handled v ++ [HandledCompressed m]
  /\ fallback_runs v' = fallback_runs v.
Proof.
  cbv zeta. unfold compressed_callback, handleCompressedImage.
  match goal with
  | |- context [updateFPS now ?w] =>
      destruct (updateFPS_frame now w) as (-> & -> & -> & ->)
  end.
  done.
Qed.

Lemma committed_compressed_step topic e v :
  committed_compressed topic v -> committed_compressed topic (step e v).
Proof.
  intros (Hs & Ht & Hf & Hr & Hc). destruct e as [id | now nm message].
  - cbn [step]. by rewrite Ht.
  - cbn [step]. unfold deliver. rewrite Hs. cbn [foldl].
    destruct (String.eqb _ nm); [|done].
    cbn [sub_callback compressed_subscription].
    destruct message as [m | m]; cbn [run_callback]; [|done].
    destruct (compressed_callback_frame 0 1 now m v) as (Hs' & Ht' & Hh' & Hf').
    unfold committed_compressed, raw_calls, compressed_calls.
    rewrite Hs', Ht', Hh', Hf', Ht, !filter_app, !length_app.
    fold (raw_calls v). fold (compressed_calls v).
    rewrite Hr. cbn. repeat split; try done. lia.
Qed.

Lemma committed_compressed_run topic es : forall v,
  committed_compressed topic v -> committed_compressed topic (run es v).
Proof.
  induction es as [|e es IH]; intros v Hv; [done|].
  apply IH, committed_compressed_step, Hv.
Qed.

(** X9. Subscribe to the camera and let a compressed message arrive before
    the probe timer fires. The timer is cancelled, and whatever messages
    arrive and whatever timer handles fire afterwards, the compressed
    subscription stays the only one, the fallback never runs and no raw
    message reaches the raw handler. *)
Theorem probe_commits_to_compressed (topic : string) (cv : Canvas)
    (now0 now : Z) (m : CompressedImage) (before after : list Event) :
  forallb (quiet topic) before = true ->
  let probing := run before (subscribeToCamera (session topic cv now0)) in
  let committed :=
    step (MessageArrives now (topic +:+ "/compressed") (Compressed m))
      probing in
  let later := run after committed in
  timers committed = []
  /\ subscriptions later = [compressed_subscription topic]
  /\ timers later = []
  /\ fallback_runs later = 0%nat
  /\ raw_calls later = 0%nat
  /\ (1 <= compressed_calls later)%nat.
Proof.
  intros Hquiet. cbv zeta. rewrite quiet_run by done.
  rewrite subscribeToCamera_session.
  assert (Hcommitted : committed_compressed topic
    (step (MessageArrives now (topic +:+ "/compressed") (Compressed m))
       {| cameraTopic := topic;
          cameraSubscriber := Some (sub_topic (compressed_subscription topic));
          canvas := cv; connectionStatus := "connected";
          statusBar := {| color := "#00FF00";
                          textContent := "✓ Camera Connected" |};
          frameCount := 0; lastFrameTime := now0; fps := 0; created := 2;
          subscriptions := [compressed_subscription topic];
          receivedMessage := [false];
          timers := [{| timer_id := 1; delay := 3000;
                        callback := ProbeTimeout 0 |}];
          handled := []; signals := [] |})).
  { cbn [step]. unfold deliver.
    cbn [subscriptions foldl sub_topic compressed_subscription name
         sub_callback run_callback].
    rewrite String.eqb_refl.
    match goal with
    | |- committed_compressed _ (compressed_callback 0 1 now m ?w) =>
        destruct (compressed_callback_frame 0 1 now m w)
          as (Hs & Ht & Hh & Hf)
    end.
    unfold committed_compressed, raw_calls, compressed_calls.
    rewrite Hs, Ht, Hh, Hf. by repeat split. }
  destruct (committed_compressed_run topic after _ Hcommitted)
    as (Hs & Ht & Hf & Hr & Hc).
  destruct Hcommitted as (_ & Ht0 & _).
  by repeat split.
Qed.

Lemma probe_commits_to_compressed_witness :
  let topic := "/camera/color/image_raw" in
  let cv := {| canvas_width := 1; canvas_height := 1;
               pixels := [0; 0; 0; 0]%Z |} in
  let jpeg := {| format := "jpeg"; compressed_data := Text "/9j/4AAQ" |} in
  let raw := Raw {| width := 1; height := 1; encoding := "mono8";
                    data := Binary [7]%Z |} in
  let before := [MessageArrives 100 topic raw] in
  let after := [TimerFires 1; MessageArrives 3600 topic raw;
                MessageArrives 3700 (topic +:+ "/compressed")
                  (Compressed jpeg)] in
  let committed :=
    step (MessageArrives 900 (topic +:+ "/compressed") (Compressed jpeg))
      (run before (subscribeToCamera (session topic cv 0))) in
  forallb (quiet topic) before = true
  /\ (timers committed = []
      /\ subscriptions (run after committed) = [compressed_subscription topic]
      /\ timers (run after committed) = []
      /\ fallback_runs (run after committed) = 0%nat
      /\ raw_calls (run after committed) = 0%nat
      /\ (1 <= compressed_calls (run after committed))%nat).
Proof.
  cbv zeta. split; [reflexivity|].
  apply (probe_commits_to_compressed "/camera/color/image_raw"). reflexivity.
Defined.

(** X10. [disconnect] removes the camera subscription but leaves the probe
    timer pending: called while the probe is still waiting, it leaves
    nothing subscribed, and when the timer fires afterwards the fallback
    runs all the same and subscribes to the raw topic. *)
Theorem disconnect_leaves_probe_timer (topic : string) (cv : Canvas)
    (now0 : Z) (r : option LaserScanVisualization.Ros) :
  let p := {| camera := subscribeToCamera (session topic cv now0);
              ros := r |} in
  let fired := step (TimerFires 1) (camera (disconnect p)) in
  subscriptions (camera (disconnect p)) = []
  /\ timers (camera (disconnect p)) =
     [{| timer_id := 1; delay := 3000; callback := ProbeTimeout 0 |}]
  /\ subscriptions fired = [raw_subscription topic]
  /\ timers fired = []
  /\ fallback_runs fired = 1%nat.
Proof.
  cbv zeta. rewrite subscribeToCamera_session. by repeat split.
Qed.

End ProbeCommitFacts.

(** ** More of the navigation status handler and of the connection *)

(** Every case of the status switch, by the binary digits of the code. *)
Ltac by_code c :=
  destruct c as [|[[[[]|[]|]|[[]|[]|]|]|[[[]|[]|]|[[]|[]|]|]|]|].

Section NavigationFacts.

Import LaserScanVisualization Navigation.

(** X11. Only the last entry of a status message counts: a message with a
    non-empty list is handled as its last entry alone would be. *)
Theorem statusCallback_last_entry (l : list GoalStatus) (st : GoalStatus)
    (v : t) :
  last l = Some st ->
  statusCallback {| status_list := Some l |} v = handleNavigationStatus st v
  /\ statusCallback {| status_list := Some l |} v =
     statusCallback {| status_list := Some [st] |} v.
Proof.
  intros (earlier & ->)%last_Some.
  destruct st as [gid c txt].
  pose proof (statusCallback_last earlier gid c txt v) as H1.
  pose proof (statusCallback_last [] gid c txt v) as H2.
  unfold status_message in H1, H2. cbn [app] in H2. by rewrite H1, H2.
Qed.

Lemma statusCallback_last_entry_witness :
  let v := holding_goal in
  let pending := {| goal_id := "goal-1"; status := 0; text := "" |} in
  let aborted := {| goal_id := "goal-2"; status := 4; text := "stuck" |} in
  last [pending; aborted] = Some aborted
  /\ (statusCallback {| status_list := Some [pending; aborted] |} v =
        handleNavigationStatus aborted v
      /\ statusCallback {| status_list := Some [pending; aborted] |} v =
         statusCallback {| status_list := Some [aborted] |} v).
Proof.
  cbv zeta. split; [reflexivity|].
  apply statusCallback_last_entry. reflexivity.
Defined.

Lemma handle_other_code st v :
  other_code (status st) = true ->
  handleNavigationStatus st v =
  match goalPosition v with
  | Some _ =>
      updateStatus "connected" ("⏱ " +:+ statusMap (status st))
        (set_navigationStatus (statusMap (status st)) v)
  | None => set_navigationStatus (statusMap (status st)) v
  end.
Proof.
  destruct st as [gid c txt]. unfold handleNavigationStatus, other_code.
  cbn [status]. intros Hc. by by_code c; try discriminate Hc.
Qed.

(** X12. The other codes (PENDING, PREEMPTED, PREEMPTING, RECALLING,
    RECALLED, LOST and unmapped integers): with no goal held the handler
    only records the status name and sends nothing; with a goal held it
    sends one connected signal carrying the status name and keeps the
    goal. *)
Theorem other_status_shown_only_with_goal (st : GoalStatus) (v : t) :
  other_code (status st) = true ->
  (goalPosition v = None ->
     handleNavigationStatus st v =
     set_navigationStatus (statusMap (status st)) v)
  /\ (forall g, goalPosition v = Some g ->
      signals (handleNavigationStatus st v) =
        signals v ++ [("connected", "⏱ " +:+ statusMap (status st))]
      /\ goalPosition (handleNavigationStatus st v) = Some g
      /\ connectionStatus (handleNavigationStatus st v) = "connected").
Proof.
  intros Hc. rewrite (handle_other_code st v Hc). split.
  - by intros ->.
  - intros g Hg. by rewrite Hg; cbn; rewrite Hg.
Qed.

Lemma other_status_shown_only_with_goal_witness :
  let lost := {| goal_id := "goal-1"; status := 9; text := "" |} in
  other_code (status lost) = true
  /\ signals (handleNavigationStatus lost holding_goal) =
       signals holding_goal ++ [("connected", "⏱ LOST")]
  /\ handleNavigationStatus lost (clearGoal holding_goal) =
       set_navigationStatus "LOST" (clearGoal holding_goal).
Proof.
  cbv zeta. split; [reflexivity|]. split.
  - exact (proj1 (proj2 (other_status_shown_only_with_goal
             {| goal_id := "goal-1"; status := 9; text := "" |}
             holding_goal eq_refl) _ eq_refl)).
  - exact (proj1 (other_status_shown_only_with_goal
             {| goal_id := "goal-1"; status := 9; text := "" |}
             (clearGoal holding_goal) eq_refl) eq_refl).
Defined.

(** X13. Whatever the code, handling a status records the name the status
    map gives the code and never touches the bridge: the connection
    object, the topic objects, the subscriptions and the pending timers
    stay as they were. *)
Theorem handleNavigationStatus_frame (st : GoalStatus) (v : t) :
  let v' := handleNavigationStatus st v in
  navigationStatus v' = statusMap (status st)
  /\ ros v' = ros v
  /\ subscriptions v' = subscriptions v
  /\ timers v' = timers v
  /\ created v' = created v
  /\ laserScanTopic v' = laserScanTopic v
  /\ goalPublisher v' = goalPublisher v
  /\ cancelPublisher v' = cancelPublisher v
  /\ pathSubscriber v' = pathSubscriber v
  /\ statusSubscriber v' = statusSubscriber v.
Proof.
  destruct st as [gid c txt]. cbv zeta. unfold handleNavigationStatus, clearGoal.
  cbn [status]. rewrite ?hideNavigationControls_eq.
  by_code c; cbn [goalPosition set_navigationStatus];
    rewrite ?hideNavigationControls_eq;
    try (destruct (goalPosition v)); by repeat split.
Qed.

(** X14. Once a goal is reached the goal is gone, so a later status with
    one of the other codes sends nothing until a goal is set again. *)
Theorem silent_after_goal_reached (reached st : GoalStatus) (v : t) :
  status reached = 3%Z -> other_code (status st) = true ->
  signals (handleNavigationStatus st (handleNavigationStatus reached v)) =
  signals (handleNavigationStatus reached v)
  /\ goalPosition (handleNavigationStatus st (handleNavigationStatus reached v))
     = None.
Proof.
  intros Hreached Hother.
  assert (Hgone : goalPosition (handleNavigationStatus reached v) = None).
  { unfold handleNavigationStatus, clearGoal. rewrite Hreached.
    by rewrite hideNavigationControls_eq. }
  rewrite (handle_other_code st _ Hother). by rewrite Hgone.
Qed.

Lemma silent_after_goal_reached_witness :
  let reached := {| goal_id := "goal-1"; status := 3; text := "" |} in
  let pending := {| goal_id := "goal-1"; status := 0; text := "" |} in
  (status reached = 3%Z /\ other_code (status pending) = true)
  /\ signals (handleNavigationStatus pending
                (handleNavigationStatus reached holding_goal)) =
       signals (handleNavigationStatus reached holding_goal)
  /\ goalPosition (handleNavigationStatus pending
                     (handleNavigationStatus reached holding_goal)) = None.
Proof.
  cbv zeta. split; [split; reflexivity|].
  apply silent_after_goal_reached; reflexivity.
Defined.

(** *** The status bar follows the stored status *)

Lemma updateStatus_consistent status message v :
  status_consistent (updateStatus status message v).
Proof. unfold status_consistent. cbn. by rewrite last_snoc. Qed.

(** What [status_consistent] reads of an object. *)
Lemma status_consistent_same v v' :
  connectionStatus v' = connectionStatus v ->
  statusBar v' = statusBar v ->
  signals v' = signals v ->
  status_consistent v -> status_consistent v'.
Proof. unfold status_consistent. by intros -> -> ->. Qed.

Lemma clearGoal_consistent v : status_consistent (clearGoal v).
Proof. apply updateStatus_consistent. Qed.

Lemma connectToROS_consistent v : status_consistent (connectToROS v).
Proof.
  by apply (status_consistent_same
              (updateStatus "connecting" "Connecting to ROS..." v));
    [..|apply updateStatus_consistent].
Qed.

Lemma handleNavigationStatus_consistent st v :
  status_consistent v -> status_consistent (handleNavigationStatus st v).
Proof.
  intros Hv. destruct st as [gid c txt]. unfold handleNavigationStatus.
  cbn [status].
  by_code c; try apply updateStatus_consistent; try apply clearGoal_consistent;
    cbn [goalPosition set_navigationStatus];
    (destruct (goalPosition v);
       [apply updateStatus_consistent
       |by apply (status_consistent_same v)]).
Qed.

Lemma step_consistent e v :
  status_consistent v -> status_consistent (step e v).
Proof.
  intros Hv. destruct e as [| | |n|message|]; cbn [step].
  - by apply (status_consistent_same
                (updateStatus "connected" "✓ Connected to ROS"
                   (with_socket Open v)));
      [..|apply updateStatus_consistent].
  - apply updateStatus_consistent.
  - by apply (status_consistent_same
                (updateStatus "disconnected" "✗ Disconnected from ROS"
                   (with_socket Closed v)));
      [..|apply updateStatus_consistent].
  - destruct (timers v !! n) as [[d []]|]; [|done]. cbn [run_timer callback].
    apply connectToROS_consistent.
  - destruct (has_status_subscription v); [|done]. unfold statusCallback.
    repeat case_match; try done. by apply handleNavigationStatus_consistent.
  - unfold disconnect. repeat case_match;
      by apply (status_consistent_same v).
Qed.

(** X15. From the constructor on, through every run of transport events,
    timers, status messages and [disconnect] calls, the status bar agrees
    with the stored status: its colour is the colour of [connectionStatus],
    and the status and text are those of the last status signal sent. *)
Theorem status_bar_follows_status (rosbridgeUrl : string) (es : list Event) :
  status_consistent (run es (constructor rosbridgeUrl)).
Proof.
  assert (Hrun : forall es v, status_consistent v ->
                              status_consistent (run es v)).
  { clear es. induction es as [|e es IH]; intros v Hv; [done|].
    apply IH, step_consistent, Hv. }
  apply Hrun, connectToROS_consistent.
Qed.

(** X16. One close, one reconnect: with no timer pending, a close event
    leaves exactly one reconnect timer of 3000 ms; when it fires the client
    opens one new connection and no timer is left, so no further timer
    event does anything. *)
Theorem close_reconnects_once (v : t) :
  timers v = [] ->
  let closed := step TransportClose v in
  let again := step (TimerFires 0) closed in
  timers closed = [{| delay := 3000; callback := Reconnect |}]
  /\ ros again = Some {| ros_id := created v; url := rosbridgeUrl v;
                         socket := Connecting |}
  /\ created again = S (created v)
  /\ connectionStatus again = "connecting"
  /\ timers again = []
  /\ subscriptions again = subscriptions v
  /\ forall n, step (TimerFires n) again = again.
Proof.
  intros Ht. cbv zeta.
  assert (Hclosed : timers (step TransportClose v) =
                    [{| delay := 3000; callback := Reconnect |}]).
  { cbn. unfold with_socket. destruct (ros v); cbn; by rewrite Ht. }
  assert (Hsame : created (step TransportClose v) = created v
    /\ rosbridgeUrl (step TransportClose v) = rosbridgeUrl v
    /\ subscriptions (step TransportClose v) = subscriptions v).
  { cbn. unfold with_socket. by destruct (ros v). }
  destruct Hsame as (Hc & Hu & Hs).
  set (closed := step TransportClose v) in *.
  split; [done|]. cbn [step]. rewrite Hclosed. subst closed.
  cbn in Hc, Hu, Hs |- *.
  rewrite Hc, Hu, Hs. by repeat split.
Qed.

Lemma close_reconnects_once_witness :
  let v := step TransportOpen (constructor "ws://localhost:9090") in
  timers v = []
  /\ (timers (step TransportClose v) =
        [{| delay := 3000; callback := Reconnect |}]
      /\ ros (step (TimerFires 0) (step TransportClose v)) =
         Some {| ros_id := created v; url := rosbridgeUrl v;
                 socket := Connecting |}
      /\ created (step (TimerFires 0) (step TransportClose v)) = S (created v)
      /\ connectionStatus (step (TimerFires 0) (step TransportClose v)) =
         "connecting"
      /\ timers (step (TimerFires 0) (step TransportClose v)) = []
      /\ subscriptions (step (TimerFires 0) (step TransportClose v)) =
         subscriptions v
      /\ forall n, step (TimerFires n)
                     (step (TimerFires 0) (step TransportClose v)) =
                   step (TimerFires 0) (step TransportClose v)).
Proof.
  cbv zeta. split; [reflexivity|].
  apply close_reconnects_once. reflexivity.
Defined.

End NavigationFacts.

(** ** Commands *)

Section CommandFacts.

Import LaserScanVisualization Commands.

Variables Math_sin Math_cos : float -> float.
Variable toFixed2 : float -> string.

Local Abbreviation sendGoal := (Commands.sendGoal Math_sin Math_cos toFixed2).

(** X17. [sendGoal] publishes exactly when a goal is held and the goal
    publisher exists. Without a goal, or before the publisher is set up,
    nothing is published and nothing changes. Otherwise one pose is
    published on the publisher's topic, in frame [map], at the goal's
    (x, y, 0) with the orientation of yaw 0, the status turns connected,
    and the goal stays held. *)
Theorem sendGoal_publishes_held_goal (now1 now2 : Z) (c : client) :
  (goalPosition (viz c) = None -> sendGoal now1 now2 c = c)
  /\ (goalPublisher (viz c) = None -> sendGoal now1 now2 c = c)
  /\ (forall x y topic,
        goalPosition (viz c) = Some (x, y) ->
        goalPublisher (viz c) = Some topic ->
        published (sendGoal now1 now2 c) =
          published c ++
          [PublishedGoal topic
             {| frame_id := "map"; stamp := goal_stamp now1 now2;
                position := (x, y, 0%float);
                orientation := (0%float, 0%float,
                                Math_sin 0%float, Math_cos 0%float) |}]
        /\ goalPosition (viz (sendGoal now1 now2 c)) = Some (x, y)
        /\ goalMarker_visible (viz (sendGoal now1 now2 c)) =
           goalMarker_visible (viz c)
        /\ connectionStatus (viz (sendGoal now1 now2 c)) = "connected").
Proof.
  unfold Commands.sendGoal, publishNavigationGoal. repeat split.
  - by intros ->.
  - intros ->. by destruct (goalPosition (viz c)) as [[x y]|].
  - by rewrite H, H0.
  - rewrite H, H0. cbn. by rewrite H.
  - by rewrite H, H0.
  - by rewrite H, H0.
Qed.

(** X18. The stamp of a published goal, for a non-negative millisecond
    clock. When both readings of the clock give the same count, the
    nanosecond field is below one second and seconds and nanoseconds
    together are that instant. The two fields come from separate readings:
    when the clock passes a full second between them, the seconds are
    those before it and the nanoseconds those after it, a stamp 999 ms
    before the first reading. *)
Theorem goal_stamp_exact (now : Z) :
  (0 <= now)%Z ->
  ((0 <= nsecs (goal_stamp now now) < 1000000000)%Z
   /\ (secs (goal_stamp now now) * 1000000000 + nsecs (goal_stamp now now) =
       now * 1000000)%Z)
  /\ goal_stamp (1000 * now + 999) (1000 * now + 1000) =
     {| secs := now; nsecs := 0 |}.
Proof.
  intros Hnow. unfold goal_stamp. cbn [secs nsecs]. split.
  - rewrite Z.rem_mod_nonneg by lia.
    pose proof (Z.mod_pos_bound now 1000 ltac:(lia)).
    pose proof (Z.div_mod now 1000 ltac:(lia)). lia.
  - f_equal.
    + symmetry. apply (Z.div_unique _ _ _ 999); lia.
    + replace (1000 * now + 1000)%Z with ((now + 1) * 1000)%Z by lia.
      by rewrite Z.rem_mul by lia.
Qed.

Lemma goal_stamp_exact_witness :
  (0 <= 1762086123456)%Z
  /\ goal_stamp 1762086123456 1762086123456 =
       {| secs := 1762086123; nsecs := 456000000 |}
  /\ ((0 <= nsecs (goal_stamp 1762086123456 1762086123456) < 1000000000)%Z
      /\ (secs (goal_stamp 1762086123456 1762086123456) * 1000000000
          + nsecs (goal_stamp 1762086123456 1762086123456)
          = 1762086123456 * 1000000)%Z).
Proof.
  split; [lia|]. split; [reflexivity|].
  apply goal_stamp_exact. lia.
Defined.

(** X19. [cancelNavigation] before the cancel publisher exists does
    nothing at all: in particular the goal stays held. With the publisher,
    it publishes one cancel message with the empty id, which cancels every
    goal, clears the goal and hides its marker; the text left on the
    status bar is the one of [clearGoal], not the cancellation notice. *)
Theorem cancelNavigation_cancels_all (c : client) :
  (cancelPublisher (viz c) = None -> cancelNavigation c = c)
  /\ (forall topic, cancelPublisher (viz c) = Some topic ->
      published (cancelNavigation c) =
        published c ++
        [PublishedCancel topic
           {| cancel_stamp := {| secs := 0; nsecs := 0 |}; id := EmptyString |}]
      /\ goalPosition (viz (cancelNavigation c)) = None
      /\ goalMarker_visible (viz (cancelNavigation c)) = false
      /\ signals (viz (cancelNavigation c)) =
         signals (viz c) ++ [("connected", "✓ Navigation Canceled");
                             ("connected", "✓ Connected to ROS")]
      /\ textContent (statusBar (viz (cancelNavigation c))) =
         "✓ Connected to ROS").
Proof.
  unfold cancelNavigation. split.
  - by intros ->.
  - intros topic ->. unfold clearGoal. rewrite hideNavigationControls_eq.
    cbn. by rewrite <- app_assoc.
Qed.

(** X20. The goal sent is the goal last set: once the goal publisher
    exists, setting a goal at (x, y), whatever was held before, and then
    sending publishes the pose at (x, y, 0). *)
Theorem sendGoal_after_setGoalPosition (now1 now2 : Z) (x y : float)
    (message : string) (topic : Topic) (c : client) :
  goalPublisher (viz c) = Some topic ->
  published (sendGoal now1 now2 (on_viz (setGoalPosition x y message) c)) =
  published c ++
  [PublishedGoal topic
     {| frame_id := "map"; stamp := goal_stamp now1 now2;
        position := (x, y, 0%float);
        orientation := (0%float, 0%float,
                        Math_sin 0%float, Math_cos 0%float) |}].
Proof.
  intros Hp.
  assert (Hg : goalPosition (setGoalPosition x y message (viz c)) =
               Some (x, y)).
  { unfold setGoalPosition. cbn. by destruct (navControls (viz c)). }
  assert (Hp' : goalPublisher (setGoalPosition x y message (viz c)) =
                Some topic).
  { unfold setGoalPosition. cbn. by destruct (navControls (viz c)). }
  unfold Commands.sendGoal, publishNavigationGoal, on_viz.
  cbn [viz published]. by rewrite Hg, Hp'.
Qed.

(** X21. Nothing is left to send once the goal has ended: after a
    cancellation that was published, and after a SUCCEEDED status,
    [sendGoal] publishes nothing and changes nothing. *)
Theorem sendGoal_nothing_after_goal_ends (now1 now2 : Z) (c : client) :
  (forall topic, cancelPublisher (viz c) = Some topic ->
     sendGoal now1 now2 (cancelNavigation c) = cancelNavigation c)
  /\ (forall st, status st = 3%Z ->
      sendGoal now1 now2 (on_viz (handleNavigationStatus st) c) =
      on_viz (handleNavigationStatus st) c).
Proof.
  split.
  - intros topic Hp. unfold Commands.sendGoal, cancelNavigation. rewrite Hp.
    cbn [viz]. unfold clearGoal. by rewrite hideNavigationControls_eq.
  - intros st Hst. unfold Commands.sendGoal, on_viz. cbn [viz].
    unfold handleNavigationStatus, clearGoal. rewrite Hst.
    by rewrite hideNavigationControls_eq.
Qed.

End CommandFacts.

Lemma sendGoal_publishes_held_goal_witness :
  let c := {| Commands.viz := LaserScanVisualization.holding_goal;
              Commands.published := [] |} in
  let sent := Commands.sendGoal (fun _ => 0%float) (fun _ => 1%float)
                (fun _ => "1.00") 1762086123456 1762086123457 c in
  LaserScanVisualization.goalPosition (Commands.viz c) = Some (1, 2)%float
  /\ LaserScanVisualization.goalPublisher (Commands.viz c) =
       Some {| LaserScanVisualization.topic_id := 2;
               LaserScanVisualization.name := "/move_base_simple/goal";
               LaserScanVisualization.messageType :=
                 "geometry_msgs/PoseStamped" |}
  /\ Commands.published sent =
       [Commands.PublishedGoal
          {| LaserScanVisualization.topic_id := 2;
             LaserScanVisualization.name := "/move_base_simple/goal";
             LaserScanVisualization.messageType :=
               "geometry_msgs/PoseStamped" |}
          {| Commands.frame_id := "map";
             Commands.stamp := {| Commands.secs := 1762086123;
                                  Commands.nsecs := 457000000 |};
             Commands.position := (1, 2, 0)%float;
             Commands.orientation := (0, 0, 0, 1)%float |}]
  /\ LaserScanVisualization.goalPosition (Commands.viz sent) =
       Some (1, 2)%float.
Proof.
  cbv zeta.
  assert (Hg : LaserScanVisualization.goalPosition
                 LaserScanVisualization.holding_goal = Some (1, 2)%float)
    by (vm_compute; reflexivity).
  assert (Hp : LaserScanVisualization.goalPublisher
                 LaserScanVisualization.holding_goal =
               Some {| LaserScanVisualization.topic_id := 2;
                       LaserScanVisualization.name := "/move_base_simple/goal";
                       LaserScanVisualization.messageType :=
                         "geometry_msgs/PoseStamped" |})
    by (vm_compute; reflexivity).
  split; [exact Hg|]. split; [exact Hp|].
  destruct (proj2 (proj2 (sendGoal_publishes_held_goal
    (fun _ => 0%float) (fun _ => 1%float) (fun _ => "1.00")
    1762086123456 1762086123457
    {| Commands.viz := LaserScanVisualization.holding_goal;
       Commands.published := [] |})) _ _ _ Hg Hp) as (H1 & H2 & _).
  split; [|exact H2].
  etransitivity; [exact H1|]. vm_compute. reflexivity.
Defined.

Lemma cancelNavigation_cancels_all_witness :
  let c := {| Commands.viz := LaserScanVisualization.holding_goal;
              Commands.published := [] |} in
  LaserScanVisualization.cancelPublisher (Commands.viz c) =
    Some {| LaserScanVisualization.topic_id := 3;
            LaserScanVisualization.name := "/move_base/cancel";
            LaserScanVisualization.messageType := "actionlib_msgs/GoalID" |}
  /\ Commands.published (Commands.cancelNavigation c) =
       [Commands.PublishedCancel
          {| LaserScanVisualization.topic_id := 3;
             LaserScanVisualization.name := "/move_base/cancel";
             LaserScanVisualization.messageType := "actionlib_msgs/GoalID" |}
          {| Commands.cancel_stamp := {| Commands.secs := 0;
                                         Commands.nsecs := 0 |};
             Commands.id := EmptyString |}]
  /\ LaserScanVisualization.goalPosition
       (Commands.viz (Commands.cancelNavigation c)) = None.
Proof.
  cbv zeta.
  assert (Hp : LaserScanVisualization.cancelPublisher
                 LaserScanVisualization.holding_goal =
               Some {| LaserScanVisualization.topic_id := 3;
                       LaserScanVisualization.name := "/move_base/cancel";
                       LaserScanVisualization.messageType :=
                         "actionlib_msgs/GoalID" |})
    by (vm_compute; reflexivity).
  split; [exact Hp|].
  destruct (proj2 (cancelNavigation_cancels_all
    {| Commands.viz := LaserScanVisualization.holding_goal;
       Commands.published := [] |}) _ Hp) as (H1 & H2 & _).
  split; [exact H1 | exact H2].
Defined.

Lemma sendGoal_after_setGoalPosition_witness :
  let c := {| Commands.viz := LaserScanVisualization.holding_goal;
              Commands.published := [] |} in
  let topic := {| LaserScanVisualization.topic_id := 2;
                  LaserScanVisualization.name := "/move_base_simple/goal";
                  LaserScanVisualization.messageType :=
                    "geometry_msgs/PoseStamped" |} in
  LaserScanVisualization.goalPosition (Commands.viz c) = Some (1, 2)%float
  /\ LaserScanVisualization.goalPublisher (Commands.viz c) = Some topic
  /\ Commands.published
       (Commands.sendGoal (fun _ => 0%float) (fun _ => 1%float)
          (fun _ => "3.50") 5000 5001
          (Commands.on_viz
             (LaserScanVisualization.setGoalPosition 3.5 (-4) "✓ Goal Set")
             c)) =
     [Commands.PublishedGoal topic
        {| Commands.frame_id := "map";
           Commands.stamp := {| Commands.secs := 5;
                                Commands.nsecs := 1000000 |};
           Commands.position := (3.5, -4, 0)%float;
           Commands.orientation := (0, 0, 0, 1)%float |}].
Proof.
  cbv zeta.
  assert (Hp : LaserScanVisualization.goalPublisher
                 LaserScanVisualization.holding_goal =
               Some {| LaserScanVisualization.topic_id := 2;
                       LaserScanVisualization.name := "/move_base_simple/goal";
                       LaserScanVisualization.messageType :=
                         "geometry_msgs/PoseStamped" |})
    by (vm_compute; reflexivity).
  split; [vm_compute; reflexivity|]. split; [exact Hp|].
  etransitivity;
    [exact (sendGoal_after_setGoalPosition
              (fun _ => 0%float) (fun _ => 1%float) (fun _ => "3.50")
              5000 5001 3.5 (-4) "✓ Goal Set" _
              {| Commands.viz := LaserScanVisualization.holding_goal;
                 Commands.published := [] |} Hp)|].
  vm_compute. reflexivity.
Defined.

(** ** Subscriptions across connections *)

Section SubscriptionFacts.

Import LaserScanVisualization Navigation.

Lemma Forall_filter_sub {A} (P Q : A -> Prop) `{!forall a, Decision (P a)}
    (l : list A) :
  Forall Q l -> Forall Q (filter P l).
Proof.
  rewrite !Forall_forall. intros HQ a Ha.
  apply list_elem_of_filter in Ha as [_ Ha]. by apply HQ.
Qed.

Lemma filter_all {A} (P : A -> Prop) `{!forall a, Decision (P a)}
    (l : list A) :
  Forall P l -> filter P l = l.
Proof.
  induction 1 as [|a l Ha _ IH]; [done|].
  by rewrite filter_cons_True, IH.
Qed.

Lemma with_socket_frame s v :
  subscriptions (with_socket s v) = subscriptions v
  /\ created (with_socket s v) = created v.
Proof. unfold with_socket. by destruct (ros v). Qed.

Lemma handleNavigationStatus_ids st v :
  subscriptions (handleNavigationStatus st v) = subscriptions v
  /\ created (handleNavigationStatus st v) = created v.
Proof.
  destruct st as [gid c txt]. unfold handleNavigationStatus, clearGoal.
  cbn [status]. rewrite ?hideNavigationControls_eq.
  by_code c; cbn [goalPosition set_navigationStatus];
    rewrite ?hideNavigationControls_eq;
    try (destruct (goalPosition v)); by split.
Qed.

Lemma statusCallback_ids message v :
  subscriptions (statusCallback message v) = subscriptions v
  /\ created (statusCallback message v) = created v.
Proof.
  unfold statusCallback. repeat case_match; try done.
  apply handleNavigationStatus_ids.
Qed.

(** What a connection event adds. *)
Lemma on_connection_subscriptions s v :
  subscriptions (on_connection (with_socket s v)) =
    subscriptions v ++ [scan_subscription (created v);
                        path_subscription (created v);
                        status_subscription (created v)]
  /\ created (on_connection (with_socket s v)) = (5 + created v)%nat
  /\ laserScanTopic (on_connection (with_socket s v)) =
     Some (sub_topic (scan_subscription (created v))).
Proof.
  destruct (with_socket_frame s v) as [Hs Hc].
  unfold on_connection, subscribeLaserScan, setupGoalPublisher, subscribePath,
    subscribeNavigationStatus, new_Topic, subscribe.
  cbn. rewrite Hs, Hc. by rewrite <- !app_assoc.
Qed.

Lemma ids_fresh_same v v' :
  subscriptions v' = subscriptions v -> (created v <= created v')%nat ->
  ids_fresh v -> ids_fresh v'.
Proof.
  unfold ids_fresh. intros -> Hc Hv.
  eapply Forall_impl; [exact Hv|]. cbn. intros s Hs. lia.
Qed.

Lemma step_ids_fresh e v : ids_fresh v -> ids_fresh (step e v).
Proof.
  intros Hv. destruct e as [| | |n|message|]; cbn [step].
  - destruct (on_connection_subscriptions Open v) as (Hs & Hc & _).
    unfold ids_fresh. rewrite Hs, Hc. apply Forall_app. split.
    + eapply Forall_impl; [exact Hv|]. cbn. intros s Hlt. lia.
    + repeat (apply Forall_cons; split; [cbn; lia|]). apply Forall_nil_2.
  - by apply (ids_fresh_same v).
  - destruct (with_socket_frame Closed v) as [Hs Hc].
    apply (ids_fresh_same v); cbn; [done|lia|done].
  - destruct (timers v !! n) as [[ms []]|]; [|done].
    apply (ids_fresh_same v); cbn; [done|lia|done].
  - destruct (has_status_subscription v); [|done].
    destruct (statusCallback_ids message v) as [Hs Hc].
    apply (ids_fresh_same v); [done|lia|done].
  - unfold disconnect, unsubscribe, ids_fresh.
    destruct (laserScanTopic v) as [tp|]; cbn; destruct (ros v) as [r|]; cbn;
      try done; by apply Forall_filter_sub.
Qed.

Lemma run_ids_fresh es v : ids_fresh v -> ids_fresh (run es v).
Proof.
  revert v. induction es as [|e es IH]; intros v Hv; [done|].
  change (run (e :: es) v) with (run es (step e v)).
  apply IH. by apply step_ids_fresh.
Qed.

Lemma constructor_ids_fresh url : ids_fresh (constructor url).
Proof.
  assert (Hs : subscriptions (constructor url) = []) by reflexivity.
  unfold ids_fresh. rewrite Hs. apply Forall_nil_2.
Qed.

(** X22. [disconnect] unsubscribes the scan topic of the latest connection
    and nothing else. In every state the object reaches from its
    constructor, a connection event followed by [disconnect] leaves every
    earlier subscription in place and adds the path and status
    subscriptions of the new connection: status messages are still
    handled after [disconnect]. *)
Theorem disconnect_unsubscribes_scan_only (rosbridgeUrl : string)
    (es : list Event) :
  let v := run es (constructor rosbridgeUrl) in
  subscriptions (step TransportOpen v) =
    subscriptions v ++ [scan_subscription (created v);
                        path_subscription (created v);
                        status_subscription (created v)]
  /\ subscriptions (step CallDisconnect (step TransportOpen v)) =
     subscriptions v ++ [path_subscription (created v);
                         status_subscription (created v)]
  /\ has_status_subscription (step CallDisconnect (step TransportOpen v)) =
     true.
Proof.
  cbv zeta. set (v := run es (constructor rosbridgeUrl)).
  assert (Hv : ids_fresh v)
    by apply run_ids_fresh, constructor_ids_fresh.
  destruct (on_connection_subscriptions Open v) as (Hs & Hc & Hl).
  cbn [step].
  assert (Hd : subscriptions (disconnect (on_connection (with_socket Open v)))
               = subscriptions v ++ [path_subscription (created v);
                                     status_subscription (created v)]).
  { unfold disconnect. rewrite Hl.
    assert (Hf : filter (fun s => topic_id (sub_topic s) ≠ created v)
                   (subscriptions (on_connection (with_socket Open v))) =
                 subscriptions v ++ [path_subscription (created v);
                                     status_subscription (created v)]).
    { rewrite Hs, filter_app. f_equal.
      - apply filter_all. eapply Forall_impl; [exact Hv|].
        cbn. intros s Hlt. lia.
      - rewrite filter_cons_False by (cbn; intros Hne; by apply Hne).
        rewrite filter_cons_True by (cbn; lia).
        rewrite filter_cons_True by (cbn; lia). done. }
    unfold unsubscribe. cbn [sub_topic scan_subscription topic_id].
    by destruct (ros _); cbn. }
  split; [exact Hs|]. split; [exact Hd|].
  unfold has_status_subscription. rewrite Hd, existsb_app. cbn.
  by rewrite orb_true_r.
Qed.

End SubscriptionFacts.

(** ** The planned path *)

Section PathFacts.

Import Path.

Lemma path_loop_bind (l : list PoseStamped) (acc : list float) :
  path_loop l acc =
  acc ++ (l ≫= fun p => [x (position (pose p)); y (position (pose p)); tenth]).
Proof.
  revert acc. induction l as [|p l IH]; intros acc; cbn [path_loop].
  - by rewrite app_nil_r.
  - rewrite IH. cbn. by rewrite <- app_assoc.
Qed.

(** X23. [updatePath] with the poses missing or empty hides the line and
    keeps the positions of the path shown before. With n > 0 poses the line
    is shown and is built from 3n numbers: the x and y of each pose, in
    order, at the fixed height 0.1; the z of a pose is never read. *)
Theorem updatePath_waypoints (line : Line) :
  updatePath None line = {| visible := false; positions := positions line |}
  /\ updatePath (Some []) line =
     {| visible := false; positions := positions line |}
  /\ forall p l,
       updatePath (Some (p :: l)) line =
         {| visible := true;
            positions :=
              (p :: l) ≫= fun q =>
                [x (position (pose q)); y (position (pose q)); tenth] |}
       /\ length (positions (updatePath (Some (p :: l)) line)) =
          (3 * length (p :: l))%nat.
Proof.
  split; [reflexivity|]. split; [reflexivity|].
  intros p l.
  assert (Heq : updatePath (Some (p :: l)) line =
    {| visible := true;
       positions :=
         (p :: l) ≫= fun q =>
           [x (position (pose q)); y (position (pose q)); tenth] |}).
  { unfold updatePath. cbn [length Nat.eqb]. by rewrite path_loop_bind. }
  split; [exact Heq|]. rewrite Heq. cbn [positions].
  generalize (p :: l). intros k. induction k as [|q k IH]; [done|].
  cbn in *. lia.
Qed.

End PathFacts.

(** ** The range filter of [updateLaserScan] *)

Section RangeFacts.

Import Scan.

Lemma SFcompare_antisym (a b : spec_float) :
  SFcompare b a = option_map CompOpp (SFcompare a b).
Proof.
  destruct a as [sa|sa| |sa ma ea], b as [sb|sb| |sb mb eb];
    try destruct sa; try destruct sb; try reflexivity.
  all: cbn; rewrite (Z.compare_antisym ea eb);
    change (Pos.compare_cont Eq mb ma) with (Pos.compare mb ma);
    change (Pos.compare_cont Eq ma mb) with (Pos.compare ma mb);
    rewrite (Pos.compare_antisym ma mb);
    by destruct (Z.compare ea eb), (Pos.compare ma mb).
Qed.

Lemma is_nan_spec (a : float) :
  is_nan a = match Prim2SF a with S754_nan => true | _ => false end.
Proof.
  unfold is_nan. rewrite FloatAxioms.eqb_spec. unfold SFeqb.
  destruct (Prim2SF a) as [s|s| |s m e]; try destruct s; try reflexivity.
  all: cbn; rewrite Z.compare_refl;
    change (Pos.compare_cont Eq m m) with (Pos.compare m m);
    by rewrite Pos.compare_refl.
Qed.

(** Below is "not at or above", as long as neither side is NaN. *)
Lemma ltb_negb_leb (a b : float) :
  is_nan a = false -> is_nan b = false -> (a <? b)%float = negb (b <=? a)%float.
Proof.
  rewrite !is_nan_spec, FloatAxioms.ltb_spec, FloatAxioms.leb_spec.
  unfold SFltb, SFleb. rewrite (SFcompare_antisym (Prim2SF a) (Prim2SF b)).
  destruct (Prim2SF a) as [sa|sa| |sa ma ea], (Prim2SF b) as [sb|sb| |sb mb eb];
    try discriminate; intros _ _; cbn;
    try destruct sa; try destruct sb; try reflexivity;
    by destruct (Z.compare ea eb), (Pos.compare_cont Eq ma mb).
Qed.

Lemma ltb_nan (a b : float) :
  is_nan a = true \/ is_nan b = true -> (a <? b)%float = false.
Proof.
  rewrite !is_nan_spec, FloatAxioms.ltb_spec. unfold SFltb.
  destruct (Prim2SF a) as [sa|sa| |sa ma ea], (Prim2SF b) as [sb|sb| |sb mb eb];
    try reflexivity; intros [|]; discriminate.
Qed.

Lemma leb_nan (a b : float) :
  is_nan a = true \/ is_nan b = true -> (a <=? b)%float = false.
Proof.
  rewrite !is_nan_spec, FloatAxioms.leb_spec. unfold SFleb.
  destruct (Prim2SF a) as [sa|sa| |sa ma ea], (Prim2SF b) as [sb|sb| |sb mb eb];
    try reflexivity; intros [|]; discriminate.
Qed.

(** X24. The range bounds are inclusive. When neither bound is NaN, a
    reading is skipped exactly when it is not within
    [range_min <= range <= range_max]: a reading equal to a bound is drawn,
    a NaN reading is not. *)
Theorem invalid_reading_inclusive (sd : ScanData) (range : float) :
  is_nan (range_min sd) = false -> is_nan (range_max sd) = false ->
  invalid_reading sd range =
  negb ((range_min sd <=? range)%float && (range <=? range_max sd)%float).
Proof.
  intros Hmin Hmax. unfold invalid_reading.
  destruct (is_nan range) eqn:Hr.
  - cbn. by rewrite (leb_nan (range_min sd) range) by by right.
  - rewrite (ltb_negb_leb range (range_min sd)) by done.
    rewrite (ltb_negb_leb (range_max sd) range) by done.
    cbn. by rewrite negb_andb.
Qed.

(** X25. A NaN bound filters nothing: with [range_min] NaN only the upper
    bound skips readings, with [range_max] NaN only the lower one, and with
    both NaN every reading that is not NaN itself is drawn. *)
Theorem invalid_reading_nan_bound (sd : ScanData) (range : float) :
  (is_nan (range_min sd) = true ->
   invalid_reading sd range = is_nan range || (range_max sd <? range)%float)
  /\ (is_nan (range_max sd) = true ->
      invalid_reading sd range =
      is_nan range || (range <? range_min sd)%float)
  /\ (is_nan (range_min sd) = true -> is_nan (range_max sd) = true ->
      invalid_reading sd range = is_nan range).
Proof.
  unfold invalid_reading. repeat split.
  - intros H. rewrite (ltb_nan range (range_min sd)) by by right.
    by rewrite orb_false_r.
  - intros H. rewrite (ltb_nan (range_max sd) range) by by left.
    by rewrite orb_false_r.
  - intros H1 H2. rewrite (ltb_nan range (range_min sd)) by by right.
    rewrite (ltb_nan (range_max sd) range) by by left.
    by rewrite !orb_false_r.
Qed.

End RangeFacts.

Lemma invalid_reading_inclusive_witness :
  let sd := {| Scan.ranges := [0.5; 4; 0.25; 8]%float;
               Scan.angle_min := 0; Scan.angle_max := 1;
               Scan.angle_increment := 0.25;
               Scan.range_min := 0.5; Scan.range_max := 4 |} in
  (is_nan (Scan.range_min sd) = false /\ is_nan (Scan.range_max sd) = false)
  /\ map (Scan.invalid_reading sd) (Scan.ranges sd) =
     [false; false; true; true]
  /\ Scan.invalid_reading sd 0.5 =
     negb ((Scan.range_min sd <=? 0.5)%float
           && (0.5 <=? Scan.range_max sd)%float).
Proof.
  cbv zeta. split; [split; reflexivity|]. split; [reflexivity|].
  apply invalid_reading_inclusive; reflexivity.
Defined.

Lemma invalid_reading_nan_bound_witness :
  let sd := {| Scan.ranges := [1; 1000000]%float;
               Scan.angle_min := 0; Scan.angle_max := 1;
               Scan.angle_increment := 1;
               Scan.range_min := nan; Scan.range_max := nan |} in
  (is_nan (Scan.range_min sd) = true /\ is_nan (Scan.range_max sd) = true)
  /\ map (Scan.invalid_reading sd) (Scan.ranges sd) = [false; false]
  /\ Scan.invalid_reading sd 1000000 = is_nan 1000000.
Proof.
  cbv zeta. split; [split; reflexivity|]. split; [reflexivity|].
  apply (proj2 (proj2 (invalid_reading_nan_bound _ _))); reflexivity.
Defined.

(** ** The frame counter *)

Section FpsFacts.

Import Host CameraVisualization CameraPage.

(** [Math_round_div a b] is the integer nearest to [a / b], the upper one
    of two that are equally near. *)
Lemma Math_round_div_nearest (a b : Z) :
  (0 < b)%Z ->
  (2 * Math_round_div a b * b <= 2 * a + b < 2 * (Math_round_div a b + 1) * b)%Z.
Proof.
  intros Hb. unfold Math_round_div.
  pose proof (Z.div_mod (2 * a + b) (2 * b) ltac:(lia)).
  pose proof (Z.mod_pos_bound (2 * a + b) (2 * b) ltac:(lia)). nia.
Qed.

Lemma Math_round_div_nonneg (a b : Z) :
  (0 <= a)%Z -> (0 < b)%Z -> (0 <= Math_round_div a b)%Z.
Proof. intros Ha Hb. unfold Math_round_div. apply Z.div_pos; lia. Qed.

(** X26. [updateFPS] counts the frame. Less than 1000 ms after the last
    update (also when the clock has stepped back) nothing else changes. From
    1000 ms on, the figure shown is the integer nearest to the frames per
    second since the last update (the upper one of two equally near), the
    status turns connected with that figure in its text, the counter
    restarts at 0 and the update time is the present. *)
Theorem updateFPS_shows_rate (now : Z) (v : t) :
  let elapsed := (now - lastFrameTime v)%Z in
  let frames := (frameCount v + 1)%Z in
  let v' := updateFPS now v in
  ((elapsed < 1000)%Z -> v' = set_frameCount frames v)
  /\ ((1000 <= elapsed)%Z ->
      (2 * fps v' * elapsed <= 2 * (frames * 1000) + elapsed
       < 2 * (fps v' + 1) * elapsed)%Z
      /\ frameCount v' = 0%Z
      /\ lastFrameTime v' = now
      /\ signals v' =
         signals v ++
         [("connected", "✓ Camera Connected (" +:+ pretty (fps v') +:+ " FPS)")]).
Proof.
  cbv zeta. unfold updateFPS. cbn [lastFrameTime set_frameCount frameCount].
  split; intros He.
  - by rewrite (proj2 (Z.leb_gt _ _)) by lia.
  - rewrite (proj2 (Z.leb_le _ _)) by lia. cbn.
    split; [|done]. apply Math_round_div_nearest. lia.
Qed.

Lemma updateFPS_counters now v :
  counters_nonneg v -> counters_nonneg (updateFPS now v).
Proof.
  unfold counters_nonneg, updateFPS. intros [Hc Hf].
  cbn [lastFrameTime set_frameCount frameCount].
  destruct (Z.leb_spec 1000 (now - lastFrameTime v)); cbn; [|lia].
  split; [lia|]. apply Math_round_div_nonneg; lia.
Qed.

Lemma counters_nonneg_same v v' :
  frameCount v' = frameCount v -> fps v' = fps v ->
  counters_nonneg v -> counters_nonneg v'.
Proof. unfold counters_nonneg. by intros -> ->. Qed.

Lemma handleRawImage_counters now message v :
  counters_nonneg v -> counters_nonneg (snd (handleRawImage now message v)).
Proof.
  intros Hv. apply (counters_nonneg_same (updateFPS now v));
    [..|by apply updateFPS_counters];
    unfold handleRawImage; rewrite updateFPS_set_handled;
    repeat case_match; by cbn.
Qed.

Lemma run_callback_counters cb now message v :
  counters_nonneg v -> counters_nonneg (run_callback cb now message v).
Proof.
  intros Hv. destruct cb as [probe timeout|], message as [m|m];
    cbn [run_callback]; try done.
  - unfold compressed_callback, handleCompressedImage.
    apply updateFPS_counters. by apply (counters_nonneg_same v).
  - by apply handleRawImage_counters.
Qed.

Lemma deliver_counters nm now message v :
  counters_nonneg v -> counters_nonneg (deliver nm now message v).
Proof.
  unfold deliver. generalize (subscriptions v). intros l. revert v.
  induction l as [|s l IH]; intros v Hv; [done|].
  cbn [foldl]. apply IH. destruct (String.eqb _ nm); [|done].
  by apply run_callback_counters.
Qed.

Lemma step_counters e v : counters_nonneg v -> counters_nonneg (step e v).
Proof.
  intros Hv. destruct e as [id | now nm message]; cbn [step].
  - destruct (filter _ (timers v)) as [|[tid ms [probe]] ?]; [done|].
    cbn [callback]. unfold probe_timeout.
    destruct (negb _); [|by apply (counters_nonneg_same v)].
    cbn [cameraSubscriber updateStatus set_connectionStatus set_statusBar
         set_signals clearTimeout set_timers].
    destruct (cameraSubscriber v); by apply (counters_nonneg_same v).
  - by apply deliver_counters.
Qed.

(** X27. In a camera session, whatever messages arrive at whatever clock
    values and whatever timers fire, the frame counter and the FPS figure
    shown are never negative. *)
Theorem counters_never_negative (topic : string) (cv : Canvas) (now0 : Z)
    (es : list Event) :
  let v := run es (subscribeToCamera (session topic cv now0)) in
  (0 <= frameCount v)%Z /\ (0 <= fps v)%Z.
Proof.
  cbv zeta. change (counters_nonneg
                      (run es (subscribeToCamera (session topic cv now0)))).
  assert (H0 : counters_nonneg (subscribeToCamera (session topic cv now0))).
  { rewrite subscribeToCamera_session. unfold counters_nonneg. cbn. lia. }
  revert H0. generalize (subscribeToCamera (session topic cv now0)).
  induction es as [|e es IH]; intros v Hv; [done|].
  change (run (e :: es) v) with (run es (step e v)).
  apply IH. by apply step_counters.
Qed.

End FpsFacts.

Lemma updateFPS_shows_rate_witness :
  let v := CameraVisualization.set_frameCount 29
             (CameraVisualization.session "/camera/color/image_raw"
                {| CameraVisualization.canvas_width := 1;
                   CameraVisualization.canvas_height := 1;
                   CameraVisualization.pixels := [0; 0; 0; 0]%Z |} 5000) in
  CameraVisualization.fps (CameraVisualization.updateFPS 6100 v) = 27%Z
  /\ CameraVisualization.frameCount (CameraVisualization.updateFPS 6100 v)
     = 0%Z
  /\ CameraVisualization.signals (CameraVisualization.updateFPS 6100 v) =
     [("connected", "✓ Camera Connected (27 FPS)")]
  /\ CameraVisualization.updateFPS 5999 v =
     CameraVisualization.set_frameCount 30 v.
Proof.
  cbv zeta.
  pose proof (updateFPS_shows_rate 6100
    (CameraVisualization.set_frameCount 29
       (CameraVisualization.session "/camera/color/image_raw"
          {| CameraVisualization.canvas_width := 1;
             CameraVisualization.canvas_height := 1;
             CameraVisualization.pixels := [0; 0; 0; 0]%Z |} 5000))) as [_ Hup].
  pose proof (updateFPS_shows_rate 5999
    (CameraVisualization.set_frameCount 29
       (CameraVisualization.session "/camera/color/image_raw"
          {| CameraVisualization.canvas_width := 1;
             CameraVisualization.canvas_height := 1;
             CameraVisualization.pixels := [0; 0; 0; 0]%Z |} 5000))) as [Hno _].
  cbv zeta in Hup, Hno.
  split; [vm_compute; reflexivity|].
  destruct Hup as (_ & Hc & _ & Hs); [vm_compute; discriminate|].
  split; [exact Hc|]. split; [etransitivity; [exact Hs|vm_compute; reflexivity]|].
  apply Hno. vm_compute. reflexivity.
Defined.
